(** * AvatarRenderer: the hands-up gesture classifier of [src/avatarrenderer.ts]

    The renderer subclasses the pose renderer of an external SDK.  Each frame
    its [update] reads eight joints of the first detected pose, computes four
    cosines from normalised limb vectors, keeps a boolean [handsUp] with a
    hysteresis band between 0.7 and 0.8, and places and shows or hides a text
    marker between the wrists.

    Numbers are JavaScript numbers, that is IEEE 754 binary64 values; they are
    embedded as Rocq's primitive [float], whose operations are the binary64
    ones (round to nearest even, NaN, signed zeros and infinities). *)

From Stdlib Require Import Floats ZArith Lia Bool List String.
Import ListNotations.

Set Implicit Arguments.
Set Warnings "-inexact-float".
Local Open Scope float_scope.

(** ** JavaScript numbers *)

Module JS.

(** [a > b] on numbers is [b < a]; false as soon as one side is NaN. *)
Definition gt (a b : float) : bool := b <? a.
Definition lt (a b : float) : bool := a <? b.

(** [a === b] on numbers: NaN differs from itself, +0 equals -0. *)
Definition strict_eq (a b : float) : bool := a =? b.

Definition is_neg_zero (x : float) : bool := is_zero x && get_sign x.
Definition is_pos_zero (x : float) : bool := is_zero x && negb (get_sign x).

(** One round of the loop of [Math.min] (ECMAScript, Math.min, step 4):
    -0 is taken below +0, otherwise the smaller number is kept. *)
Definition min_step (lowest number : float) : float :=
  if is_neg_zero number && is_pos_zero lowest then number
  else if number <? lowest then number
  else lowest.

(** [Math.min(...coerced)]: NaN as soon as one argument is NaN, else the
    least argument, starting from +Infinity. *)
Definition Math_min (coerced : list float) : float :=
  if existsb is_nan coerced then nan
  else fold_left min_step coerced infinity.

End JS.

(** ** Babylon's [Vector3]

    The vector class is the rendering library's, not this repository's. *)

Record Vector3 : Set := mkVector3 { _x : float; _y : float; _z : float }.

Module Vector3.

(** [a.subtract(b)]: a new vector, componentwise difference. *)
Definition subtract (a b : Vector3) : Vector3 :=
  mkVector3 (_x a - _x b) (_y a - _y b) (_z a - _z b).

(** [v.length()]. *)
Definition length (v : Vector3) : float :=
  sqrt (_x v * _x v + _y v * _y v + _z v * _z v).

Definition scale (v : Vector3) (s : float) : Vector3 :=
  mkVector3 (_x v * s) (_y v * s) (_z v * s).

(** Modelled from the spec: the library's [normalize], which is not in
    src/.  The spec asks that normalising a zero vector gives the zero
    vector; the library does so by returning the vector unchanged when its
    length is 0 (or already 1) and scaling it by [1 / length] otherwise. *)
Definition normalizeFromLength (v : Vector3) (len : float) : Vector3 :=
  if JS.strict_eq len 0 || JS.strict_eq len 1 then v
  else scale v (1 / len).

Definition normalize (v : Vector3) : Vector3 :=
  normalizeFromLength v (length v).

(** [Vector3.Dot(left, right)]. *)
Definition Dot (left right : Vector3) : float :=
  _x left * _x right + _y left * _y right + _z left * _z right.

(** Modelled from the spec: the library's [Lerp], which is not in src/:
    linear interpolation between [start] and [end] at [amount]. *)
Definition Lerp (start end_ : Vector3) (amount : float) : Vector3 :=
  mkVector3 (_x start + (_x end_ - _x start) * amount)
            (_y start + (_y end_ - _y start) * amount)
            (_z start + (_z end_ - _z start) * amount).

End Vector3.

(** ** Pose results

    Only the metric position of a keypoint is read; of the keypoints of a
    pose only the eight named here. *)

Record PosePoint : Set := mkPosePoint { metric : float * float * float }.

Record PosePoints : Set := mkPosePoints {
  hipL : PosePoint; hipR : PosePoint;
  shoulderL : PosePoint; shoulderR : PosePoint;
  elbowL : PosePoint; elbowR : PosePoint;
  wristL : PosePoint; wristR : PosePoint
}.

Record Pose : Set := mkPose { points : PosePoints }.

(** [result.poses] may be missing or empty. *)
Record PoseResult : Set := mkPoseResult { poses : option (list Pose) }.

(** [result.poses && result.poses.length > 0 ? result.poses[0] : undefined] *)
Definition first_pose (result : PoseResult) : option Pose :=
  match poses result with
  | Some (p :: _) => Some p
  | _ => None
  end.

(** [new Vector3(...p.metric)] *)
Definition vec (p : PosePoint) : Vector3 :=
  let '(x, y, z) := metric p in mkVector3 x y z.

(** *** The four cosines of a pose (lines 124-138 of the source) *)

Definition torsoL (p : PosePoints) : Vector3 :=
  Vector3.normalize (Vector3.subtract (vec (shoulderL p)) (vec (hipL p))).
Definition torsoR (p : PosePoints) : Vector3 :=
  Vector3.normalize (Vector3.subtract (vec (shoulderR p)) (vec (hipR p))).
Definition armL (p : PosePoints) : Vector3 :=
  Vector3.normalize (Vector3.subtract (vec (elbowL p)) (vec (shoulderL p))).
Definition armR (p : PosePoints) : Vector3 :=
  Vector3.normalize (Vector3.subtract (vec (elbowR p)) (vec (shoulderR p))).
Definition foreArmL (p : PosePoints) : Vector3 :=
  Vector3.normalize (Vector3.subtract (vec (wristL p)) (vec (elbowL p))).
Definition foreArmR (p : PosePoints) : Vector3 :=
  Vector3.normalize (Vector3.subtract (vec (wristR p)) (vec (elbowR p))).

Definition armLCos (p : PosePoints) : float := Vector3.Dot (torsoL p) (armL p).
Definition armRCos (p : PosePoints) : float := Vector3.Dot (torsoR p) (armR p).
Definition foreArmLCos (p : PosePoints) : float :=
  Vector3.Dot (foreArmL p) (armL p).
Definition foreArmRCos (p : PosePoints) : float :=
  Vector3.Dot (foreArmR p) (armR p).

Definition cosines (p : PosePoints) : list float :=
  [armLCos p; armRCos p; foreArmLCos p; foreArmRCos p].

Definition cosMin (p : PosePoints) : float := JS.Math_min (cosines p).

(** ** Scene objects *)

Record Color3 : Set := mkColor3 { r3 : float; g3 : float; b3 : float }.
Record Color4 : Set :=
  mkColor4 { r4 : float; g4 : float; b4 : float; a4 : float }.

Record PointLight : Set := mkPointLight {
  pl_intensity : float; pl_diffuse : Color3; pl_specular : Color3
}.

Record HemisphericLight : Set := mkHemisphericLight {
  hl_intensity : float; hl_diffuse : Color3; hl_specular : Color3;
  hl_groundColor : Color3
}.

(** Outcome of an [async] method: the promise resolves or rejects. *)
Inductive Outcome (E A : Type) : Type :=
| Resolved (a : A)
| Rejected (e : E).
Arguments Resolved {E A} a.
Arguments Rejected {E A} e.

(** The [mode] argument of the constructor: ["fit"] or ["crop"]. *)
Inductive Mode : Set := fit | crop.

Definition Math_PI : float := 0x1.921fb54442d18p+1.

Section Renderer.

(** Types owned by the browser, the rendering library and the SDK:
    [MeshData] stands for what a mesh carries besides the fields named in
    [AbstractMesh] (geometry, material, parent, ...), [Base] for the state
    the SDK's renderer keeps to itself (its plugins among it). *)
Context {HTMLElement Canvas OutfitParams Scene MeshData Rotation Failure
         Base : Type}.

Record AbstractMesh : Type := mkAbstractMesh {
  mesh_id : string;
  position : Vector3;
  enabled : bool;
  scaling : Vector3;
  rotation : Rotation;
  mesh_data : MeshData
}.

(** [mesh.position = p] and [mesh.setEnabled(b)]. *)
Definition set_position (p : Vector3) (m : AbstractMesh) : AbstractMesh :=
  mkAbstractMesh (mesh_id m) p (enabled m) (scaling m) (rotation m)
                 (mesh_data m).
Definition setEnabled (b : bool) (m : AbstractMesh) : AbstractMesh :=
  mkAbstractMesh (mesh_id m) (position m) b (scaling m) (rotation m)
                 (mesh_data m).
(** [mesh.scaling.setAll(v)]. *)
Definition scaling_setAll (v : float) (m : AbstractMesh) : AbstractMesh :=
  mkAbstractMesh (mesh_id m) (position m) (enabled m) (mkVector3 v v v)
                 (rotation m) (mesh_data m).
Definition set_rotation (q : Rotation) (m : AbstractMesh) : AbstractMesh :=
  mkAbstractMesh (mesh_id m) (position m) (enabled m) (scaling m) q
                 (mesh_data m).

(** The fields [AvatarRenderer] inherits and reads, and the rest. *)
Record PoseRenderer : Type := mkPoseRenderer {
  loaded : bool;
  scene : option Scene;
  base : Base
}.

Record AvatarRenderer : Type := mkAvatarRenderer {
  super : PoseRenderer;
  model : option AbstractMesh;
  light : option PointLight;
  ambient : option HemisphericLight;
  handsUp : bool;
  textModel : option AbstractMesh;
  url : string;
  outfit : option OutfitParams
}.

Definition lightInt : float := 0.5.
Definition ambientInt : float := 0.5.

Definition set_super (v : PoseRenderer) (t : AvatarRenderer) :=
  mkAvatarRenderer v (model t) (light t) (ambient t) (handsUp t)
                   (textModel t) (url t) (outfit t).
Definition set_model (v : option AbstractMesh) (t : AvatarRenderer) :=
  mkAvatarRenderer (super t) v (light t) (ambient t) (handsUp t)
                   (textModel t) (url t) (outfit t).
Definition set_light (v : option PointLight) (t : AvatarRenderer) :=
  mkAvatarRenderer (super t) (model t) v (ambient t) (handsUp t)
                   (textModel t) (url t) (outfit t).
Definition set_ambient (v : option HemisphericLight) (t : AvatarRenderer) :=
  mkAvatarRenderer (super t) (model t) (light t) v (handsUp t)
                   (textModel t) (url t) (outfit t).
Definition set_handsUp (v : bool) (t : AvatarRenderer) :=
  mkAvatarRenderer (super t) (model t) (light t) (ambient t) v
                   (textModel t) (url t) (outfit t).
Definition set_textModel (v : option AbstractMesh) (t : AvatarRenderer) :=
  mkAvatarRenderer (super t) (model t) (light t) (ambient t) (handsUp t)
                   v (url t) (outfit t).
Definition set_url (v : string) (t : AvatarRenderer) :=
  mkAvatarRenderer (super t) (model t) (light t) (ambient t) (handsUp t)
                   (textModel t) v (outfit t).
Definition set_outfit (v : option OutfitParams) (t : AvatarRenderer) :=
  mkAvatarRenderer (super t) (model t) (light t) (ambient t) (handsUp t)
                   (textModel t) (url t) v.
Definition set_scene (v : option Scene) (s : PoseRenderer) :=
  mkPoseRenderer (loaded s) v (base s).

(** What the file calls and does not define.  The methods of the base
    class act on the inherited part of the object: [handsUp] and
    [textModel] are declared by [AvatarRenderer], and this file is the only
    writer of the marker they refer to. *)
Class Framework : Type := {
  PoseRenderer_new : HTMLElement -> option Mode -> option bool -> PoseRenderer;
  addOutfitPlugin : option OutfitParams -> PoseRenderer -> PoseRenderer;
  PoseRenderer_load : PoseRenderer -> Outcome Failure unit * PoseRenderer;
  PoseRenderer_update :
    PoseResult -> Canvas -> PoseRenderer -> Outcome Failure unit * PoseRenderer;
  plugin_setOutfit :
    option AbstractMesh -> option OutfitParams -> PoseRenderer -> PoseRenderer;
  LoadAssetContainerAsync :
    string -> string -> option Scene -> option string ->
    Outcome Failure (list AbstractMesh);
  addAllToScene : list AbstractMesh -> Scene -> Scene;
  removeMesh : AbstractMesh -> bool -> Scene -> Scene;
  dispose : AbstractMesh -> bool -> bool -> Scene -> Scene;
  newPointLight : string -> Vector3 -> PointLight -> Scene -> Scene;
  newHemisphericLight :
    string -> Vector3 -> HemisphericLight -> Scene -> Scene;
  createDefaultEnvironment : bool -> string -> Scene -> Scene;
  set_clearColor : Color4 -> Scene -> Scene;
  set_ambientColor : Color3 -> Scene -> Scene;
  rotate : Vector3 -> float -> Rotation -> Rotation
}.

Context {F : Framework}.

(** *** Methods as state transformers that resolve or reject *)

Definition M (A : Type) : Type :=
  AvatarRenderer -> Outcome Failure A * AvatarRenderer.

Definition ret {A} (a : A) : M A := fun this => (Resolved a, this).

Definition bind {A B} (m : M A) (k : A -> M B) : M B :=
  fun this =>
    match m this with
    | (Resolved a, this') => k a this'
    | (Rejected e, this') => (Rejected e, this')
    end.

Definition get : M AvatarRenderer := fun this => (Resolved this, this).
Definition modify (f : AvatarRenderer -> AvatarRenderer) : M unit :=
  fun this => (Resolved tt, f this).
Definition await {A} (o : Outcome Failure A) : M A := fun this => (o, this).

(** A method of the base class, run on the inherited part. *)
Definition call_super {A}
    (m : PoseRenderer -> Outcome Failure A * PoseRenderer) : M A :=
  fun this => let (o, s) := m (super this) in (o, set_super s this).

Definition on_scene (f : Scene -> Scene) : M unit :=
  modify (fun this =>
    set_super (set_scene (option_map f (scene (super this))) (super this))
              this).

Notation "x <- m ;; k" := (bind m (fun x => k))
  (at level 61, m at next level, right associativity).
Notation "m ;; k" := (bind m (fun _ => k))
  (at level 61, right associativity).

Definition when (c : bool) (m : M unit) : M unit :=
  if c then m else ret tt.

(** [meshes.find((m) => m.id === name)] *)
Definition find_id (name : string) (meshes : list AbstractMesh)
  : option AbstractMesh :=
  find (fun m => String.eqb (mesh_id m) name) meshes.

(** In-place change of the mesh that [find_id] returns. *)
Fixpoint change_id (name : string) (f : AbstractMesh -> AbstractMesh)
    (meshes : list AbstractMesh) : list AbstractMesh :=
  match meshes with
  | [] => []
  | m :: rest =>
      if String.eqb (mesh_id m) name then f m :: rest
      else m :: change_id name f rest
  end.

(** *** constructor *)
Definition new_AvatarRenderer (container : HTMLElement) (mode : option Mode)
    (mirror : option bool) (url_arg : option string)
    (outfit_arg : option OutfitParams) : AvatarRenderer :=
  let url0 := match url_arg with Some u => u | None => "onesie.glb"%string end in
  mkAvatarRenderer
    (addOutfitPlugin outfit_arg (PoseRenderer_new container mode mirror))
    None None None false None url0 outfit_arg.

(** *** setOutfit *)
Definition setOutfit (url_arg : string) (outfit_arg : option OutfitParams)
  : M unit :=
  this <- get ;;
  match model this with
  | Some m => on_scene (removeMesh m true) ;; on_scene (dispose m true true)
  | None => ret tt
  end ;;
  modify (set_model None) ;;
  modify (set_url url_arg) ;;
  modify (set_outfit outfit_arg) ;;
  this <- get ;;
  gltf <- await (LoadAssetContainerAsync "" url_arg (scene (super this))
                                         (Some ".glb"%string)) ;;
  modify (set_model (find_id "__root__" gltf)) ;;
  on_scene (addAllToScene gltf) ;;
  this <- get ;;
  modify (fun t => set_super
                     (plugin_setOutfit (model this) outfit_arg (super t)) t).

(** *** setModel *)
Definition setModel (url_arg : string) : M unit :=
  this <- get ;;
  setOutfit url_arg (outfit this).

(** *** setupScene

    Its [scene] argument is the object [this.scene] refers to, so what it
    does to the argument is done to the scene of the state.  A light is
    handed to the scene with the properties the method gives it. *)
Definition setupScene : M unit :=
  this <- get ;;
  setModel (url this) ;;
  let white := mkColor3 1 1 1 in
  let pl := mkPointLight lightInt white white in
  modify (set_light (Some pl)) ;;
  on_scene (newPointLight "pointLight" (mkVector3 0 0 0) pl) ;;
  let hl := mkHemisphericLight ambientInt white white white in
  modify (set_ambient (Some hl)) ;;
  on_scene (newHemisphericLight "ambientLight" (mkVector3 0 1 0) hl) ;;
  on_scene (createDefaultEnvironment false "environment.env") ;;
  on_scene (set_clearColor (mkColor4 0 0 0 0)) ;;
  on_scene (set_ambientColor white) ;;
  this <- get ;;
  gltf <- await (LoadAssetContainerAsync "./" "text.glb"
                                         (scene (super this)) None) ;;
  let gltf :=
    change_id "Text"
      (fun textMesh =>
         let m1 := scaling_setAll 0.075 textMesh in
         let m2 := set_rotation
                     (rotate (mkVector3 0 1 0) Math_PI (rotation m1)) m1 in
         set_rotation
           (rotate (mkVector3 1 0 0) (Math_PI / 2) (rotation m2)) m2)
      gltf in
  modify (set_textModel (find_id "__root__" gltf)) ;;
  on_scene (addAllToScene gltf).

(** *** load *)
Definition load : M unit :=
  this <- get ;;
  match loaded (super this), scene (super this) with
  | false, Some _ =>
      setupScene ;;
      call_super PoseRenderer_load
  | _, _ => ret tt
  end.

(** *** update

    The marker [textModel] refers to is also a node of the scene
    ([gltf.addAllToScene()] in [setupScene]).  The model keeps the marker in
    [textModel] only: the scene handed to the base class does not show the
    position and flag written here, and nothing is stated about what the base
    class reads of the marker. *)
Definition update (result : PoseResult) (stream : Canvas) : M unit :=
  match first_pose result with
  | None =>
      modify (set_handsUp false) ;;
      call_super (PoseRenderer_update result stream)
  | Some pose =>
      let points := points pose in
      let wristL := vec (wristL points) in
      let wristR := vec (wristR points) in
      let cosMin := cosMin points in
      when (JS.gt cosMin 0.8) (modify (set_handsUp true)) ;;
      when (JS.lt cosMin 0.7) (modify (set_handsUp false)) ;;
      this <- get ;;
      match textModel this with
      | Some textModel =>
          let position := Vector3.Lerp wristL wristR 0.5 in
          modify (set_textModel
                    (Some (setEnabled (handsUp this)
                                      (set_position position textModel))))
      | None => ret tt
      end ;;
      call_super (PoseRenderer_update result stream)
  end.

(** The renderer after a method has run, and how the method ended. *)
Definition after {A} (m : M A) (this : AvatarRenderer) : AvatarRenderer :=
  snd (m this).
Definition outcome {A} (m : M A) (this : AvatarRenderer)
  : Outcome Failure A :=
  fst (m this).

End Renderer.

Arguments AbstractMesh : clear implicits.
Arguments PoseRenderer : clear implicits.
Arguments AvatarRenderer : clear implicits.
Arguments Framework : clear implicits.

(** ** The classifier as the specification words it

    [classify(pose, previousState)], hysteresis rule: if [cosMin > 0.8] the
    new state is true, else if [cosMin < 0.7] it is false, else it is the
    previous state. *)
Definition classify_rule (cosMin : float) (previousState : bool) : bool :=
  if JS.gt cosMin 0.8 then true
  else if JS.lt cosMin 0.7 then false
  else previousState.

(** ** Degenerate limbs *)

Definition is_zero_vec (v : Vector3) : bool :=
  is_zero (_x v) && is_zero (_y v) && is_zero (_z v).

Definition vfinite (v : Vector3) : bool :=
  is_finite (_x v) && is_finite (_y v) && is_finite (_z v).

(** The two limb difference vectors behind each of the four cosines, in the
    order of [cosines]. *)
Definition limb_pairs (p : PosePoints) : list (Vector3 * Vector3) :=
  [ (Vector3.subtract (vec (shoulderL p)) (vec (hipL p)),
     Vector3.subtract (vec (elbowL p)) (vec (shoulderL p)));
    (Vector3.subtract (vec (shoulderR p)) (vec (hipR p)),
     Vector3.subtract (vec (elbowR p)) (vec (shoulderR p)));
    (Vector3.subtract (vec (wristL p)) (vec (elbowL p)),
     Vector3.subtract (vec (elbowL p)) (vec (shoulderL p)));
    (Vector3.subtract (vec (wristR p)) (vec (elbowR p)),
     Vector3.subtract (vec (elbowR p)) (vec (shoulderR p))) ].

Definition pair_cos (uv : Vector3 * Vector3) : float :=
  Vector3.Dot (Vector3.normalize (fst uv)) (Vector3.normalize (snd uv)).

(** One of the two limbs is the zero vector and the direction of the other
    has finite components. *)
Definition degenerate (uv : Vector3 * Vector3) : bool :=
  is_zero_vec (fst uv) && vfinite (Vector3.normalize (snd uv))
  || is_zero_vec (snd uv) && vfinite (Vector3.normalize (fst uv)).

(** ** A framework double and sample frames

    A base renderer that draws nothing: its scene is the list of the names of
    what was put into it, its [load] marks the renderer loaded, its [update]
    does nothing, and the asset loader serves the two meshes of [text.glb]
    for every file. *)
Module Sample.

Definition mesh (name : string) : AbstractMesh unit unit :=
  mkAbstractMesh name (mkVector3 0 0 0) true (mkVector3 1 1 1) tt tt.

#[export] Instance headless
  : Framework unit unit unit (list string) unit unit string unit := {|
  PoseRenderer_new := fun _ _ _ => mkPoseRenderer false (Some []) tt;
  addOutfitPlugin := fun _ s => s;
  PoseRenderer_load := fun s =>
    (Resolved tt, mkPoseRenderer true (scene s) (base s));
  PoseRenderer_update := fun _ _ s => (Resolved tt, s);
  plugin_setOutfit := fun _ _ s => s;
  LoadAssetContainerAsync := fun _ _ _ _ =>
    Resolved [mesh "__root__"; mesh "Text"];
  addAllToScene := fun ms sc => (sc ++ map (@mesh_id unit unit) ms)%list;
  removeMesh := fun _ _ sc => sc;
  dispose := fun _ _ _ sc => sc;
  newPointLight := fun n _ _ sc => (sc ++ [n])%list;
  newHemisphericLight := fun n _ _ sc => (sc ++ [n])%list;
  createDefaultEnvironment := fun _ env sc => (sc ++ [env])%list;
  set_clearColor := fun _ sc => sc;
  set_ambientColor := fun _ sc => sc;
  rotate := fun _ _ q => q
|}.

Definition Renderer : Type :=
  AvatarRenderer unit (list string) unit unit unit.

(** A renderer as the constructor leaves it. *)
Definition fresh : Renderer :=
  new_AvatarRenderer tt (Some fit) None None None.

(** A loaded renderer showing the marker, [handsUp] being [b]. *)
Definition showing (b : bool) : Renderer :=
  mkAvatarRenderer (mkPoseRenderer true (Some []) tt) None None None b
                   (Some (mesh "__root__")) "onesie.glb" None.

Definition joint (x y z : float) : PosePoint := mkPosePoint (x, y, z).

Definition frame (p : PosePoints) : PoseResult :=
  mkPoseResult (Some [mkPose p]).

Definition no_pose : PoseResult := mkPoseResult (Some []).

(** Both arms stretched upwards. *)
Definition arms_up : PosePoints :=
  mkPosePoints (joint (-0.1) 0 0) (joint 0.1 0 0)
               (joint (-0.2) 0.5 0) (joint 0.2 0.5 0)
               (joint (-0.22) 0.8 0) (joint 0.22 0.8 0)
               (joint (-0.25) 1.1 0.01) (joint 0.25 1.1 0.01).

(** Both arms hanging. *)
Definition arms_down : PosePoints :=
  mkPosePoints (joint (-0.1) 0 0) (joint 0.1 0 0)
               (joint (-0.2) 0.5 0) (joint 0.2 0.5 0)
               (joint (-0.25) 0.2 0) (joint 0.25 0.2 0)
               (joint (-0.25) (-0.1) 0) (joint 0.25 (-0.1) 0).

(** Torso along (0,1,0), upper arms and forearms along (0.6,0.8,0). *)
Definition arms_at_bound : PosePoints :=
  mkPosePoints (joint 0 (-1) 0) (joint 0 (-1) 0)
               (joint 0 0 0) (joint 0 0 0)
               (joint 0.6 0.8 0) (joint 0.6 0.8 0)
               (joint 1.2 1.6 0) (joint 1.2 1.6 0).

(** Wrists at (0,0,0) and (2,0,0). *)
Definition wrists_apart : PosePoints :=
  mkPosePoints (joint 0 0 0) (joint 0 0 0) (joint 0 1 0) (joint 0 1 0)
               (joint 0 2 0) (joint 0 2 0) (joint 0 0 0) (joint 2 0 0).

(** Left elbow on the left shoulder. *)
Definition elbow_on_shoulder : PosePoints :=
  mkPosePoints (joint (-0.1) 0 0) (joint 0.1 0 0)
               (joint (-0.2) 0.5 0) (joint 0.2 0.5 0)
               (joint (-0.2) 0.5 0) (joint 0.22 0.8 0)
               (joint (-0.25) 1.1 0.01) (joint 0.25 1.1 0.01).

(** The largest magnitude used below, a finite number: twice as much is
    beyond the largest one, about 1.8e308. *)
Definition huge : float := 1e308.

(** Left hip and left shoulder that far apart, left elbow on the left
    shoulder, right arm stretched upwards. *)
Definition far_hip : PosePoints :=
  mkPosePoints (joint (-huge) 0 0) (joint 0.1 0 0)
               (joint huge 0 0) (joint 0.2 0.5 0)
               (joint huge 0 0) (joint 0.22 0.8 0)
               (joint huge 0.3 0) (joint 0.25 1.1 0.01).

(** Left side that far apart, right arm hanging. *)
Definition far_hip_arm_down : PosePoints :=
  mkPosePoints (joint (-huge) 0 0) (joint 0.1 0 0)
               (joint huge 0 0) (joint 0.2 0.5 0)
               (joint huge 0.3 0) (joint 0.25 0.2 0)
               (joint huge 0.6 0) (joint 0.25 (-0.1) 0).

End Sample.


(** ** Steps of [setOutfit] and [setupScene], runs of frames *)

(** The gesture after one frame, from the gesture before it: what [update]
    does to [handsUp], as a function of the frame alone. *)
Definition gesture_step (previous : bool) (result : PoseResult) : bool :=
  match first_pose result with
  | None => false
  | Some pose => classify_rule (cosMin (points pose)) previous
  end.

(** [Math.min] keeps [x] rather than [y]: [x] is the smaller one, or they
    are the two zeros and [x] is the negative one. *)
Definition min_prefers (x y : float) : bool :=
  JS.is_neg_zero x && JS.is_pos_zero y || (x <? y).

(** A pose with its left and right side exchanged. *)
Definition mirrored (p : PosePoints) : PosePoints :=
  mkPosePoints (hipR p) (hipL p) (shoulderR p) (shoulderL p)
               (elbowR p) (elbowL p) (wristR p) (wristL p).

Section Steps.

Context {HTMLElement Canvas OutfitParams Scene MeshData Rotation Failure
         Base : Type}.
Context {F : Framework HTMLElement Canvas OutfitParams Scene MeshData
                       Rotation Failure Base}.

(** The scene once [setOutfit] has removed and disposed the current model. *)
Definition scene_without_model
    (this : AvatarRenderer OutfitParams Scene MeshData Rotation Base)
  : option Scene :=
  match model this with
  | Some m =>
      option_map (dispose m true true)
                 (option_map (removeMesh m true) (scene (super this)))
  | None => scene (super this)
  end.

(** The renderer when [setOutfit] reaches its [await]. *)
Definition cleared (url_arg : string) (outfit_arg : option OutfitParams)
    (this : AvatarRenderer OutfitParams Scene MeshData Rotation Base)
  : AvatarRenderer OutfitParams Scene MeshData Rotation Base :=
  mkAvatarRenderer
    (mkPoseRenderer (loaded (super this)) (scene_without_model this)
                    (base (super this)))
    None (light this) (ambient this) (handsUp this) (textModel this)
    url_arg outfit_arg.

(** The renderer when [setOutfit] has resolved with the container [gltf]. *)
Definition fitted (gltf : list (AbstractMesh MeshData Rotation))
    (url_arg : string) (outfit_arg : option OutfitParams)
    (this : AvatarRenderer OutfitParams Scene MeshData Rotation Base)
  : AvatarRenderer OutfitParams Scene MeshData Rotation Base :=
  mkAvatarRenderer
    (plugin_setOutfit (find_id "__root__" gltf) outfit_arg
       (mkPoseRenderer (loaded (super this))
          (option_map (addAllToScene gltf) (scene_without_model this))
          (base (super this))))
    (find_id "__root__" gltf) (light this) (ambient this) (handsUp this)
    (textModel this) url_arg outfit_arg.

(** What [setupScene] does to the mesh named ["Text"]. *)
Definition adjust_text (textMesh : AbstractMesh MeshData Rotation)
  : AbstractMesh MeshData Rotation :=
  let m1 := scaling_setAll 0.075 textMesh in
  let m2 := set_rotation
              (rotate (mkVector3 0 1 0) Math_PI (rotation m1)) m1 in
  set_rotation (rotate (mkVector3 1 0 0) (Math_PI / 2) (rotation m2)) m2.

(** What [setupScene] does to the scene between its two loads. *)
Definition lit (sc : Scene) : Scene :=
  let white := mkColor3 1 1 1 in
  set_ambientColor white
    (set_clearColor (mkColor4 0 0 0 0)
       (createDefaultEnvironment false "environment.env"
          (newHemisphericLight "ambientLight" (mkVector3 0 1 0)
             (mkHemisphericLight ambientInt white white white)
             (newPointLight "pointLight" (mkVector3 0 0 0)
                (mkPointLight lightInt white white) sc)))).

(** The renderer when [setupScene] reaches its second [await]: lights made
    and handed to the scene, environment and colours set. *)
Definition lit_up
    (this : AvatarRenderer OutfitParams Scene MeshData Rotation Base)
  : AvatarRenderer OutfitParams Scene MeshData Rotation Base :=
  let white := mkColor3 1 1 1 in
  mkAvatarRenderer
    (mkPoseRenderer (loaded (super this))
                    (option_map lit (scene (super this)))
                    (base (super this)))
    (model this)
    (Some (mkPointLight lightInt white white))
    (Some (mkHemisphericLight ambientInt white white white))
    (handsUp this) (textModel this) (url this) (outfit this).

(** The renderer when [setupScene] has resolved, [gltf] being the container
    of [text.glb]. *)
Definition with_text (gltf : list (AbstractMesh MeshData Rotation))
    (this : AvatarRenderer OutfitParams Scene MeshData Rotation Base)
  : AvatarRenderer OutfitParams Scene MeshData Rotation Base :=
  let adjusted := change_id "Text" adjust_text gltf in
  mkAvatarRenderer
    (mkPoseRenderer (loaded (super this))
                    (option_map (addAllToScene adjusted)
                                (scene (super this)))
                    (base (super this)))
    (model this) (light this) (ambient this) (handsUp this)
    (find_id "__root__" adjusted) (url this) (outfit this).

(** Frames handled one after the other, each by [update]. *)
Fixpoint updates (frames : list (PoseResult * Canvas))
    (this : AvatarRenderer OutfitParams Scene MeshData Rotation Base)
  : AvatarRenderer OutfitParams Scene MeshData Rotation Base :=
  match frames with
  | [] => this
  | (result, stream) :: rest =>
      updates rest (after (update result stream) this)
  end.

End Steps.

(** A framework double whose loader serves only the files [available]
    accepts; everything else is as in [Sample.headless]. *)
Module Offline.

Definition backend (available : string -> bool)
  : Framework unit unit unit (list string) unit unit string unit := {|
  PoseRenderer_new := fun _ _ _ => mkPoseRenderer false (Some []) tt;
  addOutfitPlugin := fun _ s => s;
  PoseRenderer_load := fun s =>
    (Resolved tt, mkPoseRenderer true (scene s) (base s));
  PoseRenderer_update := fun _ _ s => (Resolved tt, s);
  plugin_setOutfit := fun _ _ s => s;
  LoadAssetContainerAsync := fun _ file _ _ =>
    if available file
    then Resolved [Sample.mesh "__root__"; Sample.mesh "Text"]
    else Rejected ("cannot load " ++ file)%string;
  addAllToScene := fun ms sc => (sc ++ map (@mesh_id unit unit) ms)%list;
  removeMesh := fun m _ sc =>
    filter (fun n => negb (String.eqb n (mesh_id m))) sc;
  dispose := fun _ _ _ sc => sc;
  newPointLight := fun n _ _ sc => (sc ++ [n])%list;
  newHemisphericLight := fun n _ _ sc => (sc ++ [n])%list;
  createDefaultEnvironment := fun _ env sc => (sc ++ [env])%list;
  set_clearColor := fun _ sc => sc;
  set_ambientColor := fun _ sc => sc;
  rotate := fun axis angle q => q
|}.

(** No file can be loaded. *)
Definition nothing : string -> bool := fun _ => false.

(** Every file but [text.glb] can be loaded. *)
Definition no_text : string -> bool :=
  fun file => negb (String.eqb file "text.glb").

(** The double that loads nothing, and the one without [text.glb]. *)
Definition down : Framework unit unit unit (list string) unit unit string unit
  := backend nothing.
Definition textless
  : Framework unit unit unit (list string) unit unit string unit
  := backend no_text.

(** A renderer with a scene, not loaded yet, wearing a model. *)
Definition dressed : Sample.Renderer :=
  mkAvatarRenderer (mkPoseRenderer false (Some ["__root__"%string]) tt)
                   (Some (Sample.mesh "__root__")) None None true
                   (Some (Sample.mesh "__root__")) "onesie.glb" (Some tt).

End Offline.


(** ** Exact values of numbers, for midpoints *)

From Stdlib Require Import QArith Lqa.
Close Scope Q_scope.

(** The rational a finite binary64 number stands for. *)
Definition SFvalue (x : spec_float) : option Q :=
  match x with
  | S754_zero _ => Some 0%Q
  | S754_finite s m e => Some (inject_Z (cond_Zopp s (Zpos m)) * 2 ^ e)%Q
  | S754_infinity _ | S754_nan => None
  end.

Definition value (x : float) : option Q := SFvalue (Prim2SF x).

(** [m] is finite and is exactly half way between [l] and [r]. *)
Definition exact_midpoint (m l r : float) : bool :=
  match value m, value l, value r with
  | Some vm, Some vl, Some vr => Qeq_bool (2 * vm) (vl + vr)
  | _, _, _ => false
  end.

(** None of the three operations of [l + (r - l) * 0.5] rounds or
    overflows: each result stands for the exact difference, half and sum. *)
Definition rounds_nowhere (l r : float) : bool :=
  match value l, value r, value (r - l), value ((r - l) * 0.5),
        value (l + (r - l) * 0.5) with
  | Some vl, Some vr, Some vd, Some vh, Some vp =>
      Qeq_bool vd (vr - vl) && Qeq_bool (2 * vh) vd && Qeq_bool vp (vl + vh)
  | _, _, _, _, _ => false
  end.

Definition exact_midpoint3 (m l r : Vector3) : bool :=
  exact_midpoint (_x m) (_x l) (_x r) &&
  exact_midpoint (_y m) (_y l) (_y r) &&
  exact_midpoint (_z m) (_z l) (_z r).

Definition rounds_nowhere3 (l r : Vector3) : bool :=
  rounds_nowhere (_x l) (_x r) && rounds_nowhere (_y l) (_y r) &&
  rounds_nowhere (_z l) (_z r).

(** A framework double as [Sample.headless], but whose base [load] leaves
    the loaded flag as it finds it; and a pose with the wrists at x = 0.3 and
    x = 1.1. *)
Module Unmarked.

Definition backend
  : Framework unit unit unit (list string) unit unit string unit := {|
  PoseRenderer_new := fun _ _ _ => mkPoseRenderer false (Some []) tt;
  addOutfitPlugin := fun _ s => s;
  PoseRenderer_load := fun s => (Resolved tt, s);
  PoseRenderer_update := fun _ _ s => (Resolved tt, s);
  plugin_setOutfit := fun _ _ s => s;
  LoadAssetContainerAsync := fun _ _ _ _ =>
    Resolved [Sample.mesh "__root__"; Sample.mesh "Text"];
  addAllToScene := fun ms sc => (sc ++ map (@mesh_id unit unit) ms)%list;
  removeMesh := fun _ _ sc => sc;
  dispose := fun _ _ _ sc => sc;
  newPointLight := fun n _ _ sc => (sc ++ [n])%list;
  newHemisphericLight := fun n _ _ sc => (sc ++ [n])%list;
  createDefaultEnvironment := fun _ env sc => (sc ++ [env])%list;
  set_clearColor := fun _ sc => sc;
  set_ambientColor := fun _ sc => sc;
  rotate := fun _ _ q => q
|}.

Definition wrists_uneven : PosePoints :=
  mkPosePoints (Sample.joint 0 0 0) (Sample.joint 0 0 0)
               (Sample.joint 0 1 0) (Sample.joint 0 1 0)
               (Sample.joint 0 2 0) (Sample.joint 0 2 0)
               (Sample.joint 0.3 0 0) (Sample.joint 1.1 0 0).

End Unmarked.


(** * Properties *)

Unset Implicit Arguments.

(** ** Order of binary64 numbers

    Comparisons of primitive floats are specified through [Prim2SF] and
    [SFcompare]; the lemmas are proved on [spec_float] and carried over. *)

Module SF.

(** Comparisons of exponents and mantissas, case by case. *)
Ltac cmp_cases :=
  repeat match goal with
  | H : context [Pos.compare_cont Eq ?a ?b] |- _ =>
      change (Pos.compare_cont Eq a b) with (Pos.compare a b) in H
  | |- context [Pos.compare_cont Eq ?a ?b] =>
      change (Pos.compare_cont Eq a b) with (Pos.compare a b)
  end;
  repeat match goal with
  | H : context [Z.compare ?a ?b] |- _ =>
      destruct (Z.compare_spec a b); simpl in H
  | |- context [Z.compare ?a ?b] =>
      destruct (Z.compare_spec a b); simpl
  | H : context [Pos.compare ?a ?b] |- _ =>
      destruct (Pos.compare_spec a b); simpl in H
  | |- context [Pos.compare ?a ?b] =>
      destruct (Pos.compare_spec a b); simpl
  end;
  subst; try congruence; try lia.

(** The classes and signs of three numbers. *)
Ltac by_cases a b c :=
  destruct a as [[]|[]| |[] ? ?], b as [[]|[]| |[] ? ?],
           c as [[]|[]| |[] ? ?];
  simpl; try congruence.

(** Weak transitivity: two comparisons none of which is [Gt] compose, to
    [Eq] when both are [Eq] and to [Lt] otherwise. *)
Lemma compare_trans (a b c : spec_float) (o1 o2 : comparison) :
  SFcompare a b = Some o1 -> SFcompare b c = Some o2 ->
  o1 <> Gt -> o2 <> Gt ->
  SFcompare a c = Some (match o1, o2 with Eq, Eq => Eq | _, _ => Lt end).
Proof.
  by_cases a b c; intros H1 H2 G1 G2;
    injection H1 as <-; injection H2 as <-; try congruence; try reflexivity;
    f_equal; revert G1 G2; cmp_cases.
Qed.

Lemma compare_antisym (a b : spec_float) :
  SFcompare b a = option_map CompOpp (SFcompare a b).
Proof.
  destruct a as [[]|[]| |[] ? ?], b as [[]|[]| |[] ? ?]; simpl; try reflexivity;
    f_equal; cmp_cases.
Qed.

Lemma compare_refl (a : spec_float) :
  a <> S754_nan -> SFcompare a a = Some Eq.
Proof.
  destruct a as [[]|[]| |[] ? ?]; simpl; try congruence; intros _; f_equal;
    rewrite Z.compare_refl, ?Pos.compare_cont_refl; reflexivity.
Qed.

Lemma compare_some (a b : spec_float) :
  a <> S754_nan -> b <> S754_nan -> exists o, SFcompare a b = Some o.
Proof.
  destruct a as [[]|[]| |[] ? ?], b as [[]|[]| |[] ? ?]; simpl; try congruence;
    intros _ _; eexists; reflexivity.
Qed.

Lemma compare_not_nan (a b : spec_float) (o : comparison) :
  SFcompare a b = Some o -> a <> S754_nan /\ b <> S754_nan.
Proof.
  destruct a, b; simpl; try congruence; intros _; split; congruence.
Qed.

End SF.

Module FloatOrder.

Lemma is_nan_false (x : float) :
  is_nan x = false <-> Prim2SF x <> S754_nan.
Proof.
  unfold is_nan. rewrite FloatAxioms.eqb_spec. unfold SFeqb. split.
  - intros H E. rewrite E in H. discriminate.
  - intros H. rewrite (SF.compare_refl _ H). reflexivity.
Qed.

Lemma ltb_compare (a b : float) :
  (a <? b) = true <-> SFcompare (Prim2SF a) (Prim2SF b) = Some Lt.
Proof.
  rewrite FloatAxioms.ltb_spec. unfold SFltb.
  destruct (SFcompare _ _) as [[]|]; split; congruence.
Qed.

Lemma leb_compare (a b : float) :
  (a <=? b) = true <->
  exists o, SFcompare (Prim2SF a) (Prim2SF b) = Some o /\ o <> Gt.
Proof.
  rewrite FloatAxioms.leb_spec. unfold SFleb.
  destruct (SFcompare _ _) as [[]|]; split; try congruence;
    try (intros _; eexists; split; [reflexivity | congruence]);
    intros [o [E G]]; congruence.
Qed.

Lemma eqb_compare (a b : float) :
  (a =? b) = true <-> SFcompare (Prim2SF a) (Prim2SF b) = Some Eq.
Proof.
  rewrite FloatAxioms.eqb_spec. unfold SFeqb.
  destruct (SFcompare _ _) as [[]|]; split; congruence.
Qed.

Lemma ltb_leb (a b : float) : (a <? b) = true -> (a <=? b) = true.
Proof.
  rewrite ltb_compare, leb_compare. intros H. exists Lt. split; congruence.
Qed.

Lemma eqb_leb (a b : float) : (a =? b) = true -> (a <=? b) = true.
Proof.
  rewrite eqb_compare, leb_compare. intros H. exists Eq. split; congruence.
Qed.

Lemma ltb_not_nan (a b : float) :
  (a <? b) = true -> is_nan a = false /\ is_nan b = false.
Proof.
  rewrite ltb_compare, !is_nan_false. apply SF.compare_not_nan.
Qed.

Lemma leb_not_nan (a b : float) :
  (a <=? b) = true -> is_nan a = false /\ is_nan b = false.
Proof.
  rewrite leb_compare, !is_nan_false. intros [o [E _]].
  exact (SF.compare_not_nan _ _ _ E).
Qed.

Lemma leb_refl (a : float) : is_nan a = false -> (a <=? a) = true.
Proof.
  rewrite is_nan_false, leb_compare. intros H. exists Eq.
  split; [apply SF.compare_refl; exact H | congruence].
Qed.

Lemma leb_trans (a b c : float) :
  (a <=? b) = true -> (b <=? c) = true -> (a <=? c) = true.
Proof.
  rewrite !leb_compare. intros [o1 [E1 G1]] [o2 [E2 G2]].
  exists (match o1, o2 with Eq, Eq => Eq | _, _ => Lt end). split.
  - apply SF.compare_trans with (b := Prim2SF b); assumption.
  - destruct o1, o2; simpl; congruence.
Qed.

Lemma leb_ltb_trans (a b c : float) :
  (a <=? b) = true -> (b <? c) = true -> (a <? c) = true.
Proof.
  rewrite leb_compare, !ltb_compare. intros [o1 [E1 G1]] E2.
  rewrite (SF.compare_trans _ _ _ _ _ E1 E2 G1) by congruence.
  destruct o1; reflexivity.
Qed.

Lemma ltb_leb_trans (a b c : float) :
  (a <? b) = true -> (b <=? c) = true -> (a <? c) = true.
Proof.
  rewrite leb_compare, !ltb_compare. intros E1 [o2 [E2 G2]].
  rewrite (SF.compare_trans _ _ _ _ _ E1 E2) by congruence.
  reflexivity.
Qed.

Lemma ltb_trans (a b c : float) :
  (a <? b) = true -> (b <? c) = true -> (a <? c) = true.
Proof.
  intros H1 H2. apply ltb_leb_trans with (b := b); [exact H1 | ].
  apply ltb_leb. exact H2.
Qed.

Lemma eqb_sym_leb (a b : float) : (a =? b) = true -> (b <=? a) = true.
Proof.
  rewrite eqb_compare, leb_compare. intros E. exists Eq.
  rewrite SF.compare_antisym, E. split; [reflexivity | congruence].
Qed.

(** [a <= b] excludes [b < a]. *)
Lemma leb_not_ltb (a b : float) : (a <=? b) = true -> (b <? a) = false.
Proof.
  rewrite leb_compare. intros [o [E G]].
  apply not_true_is_false. rewrite ltb_compare, SF.compare_antisym, E.
  destruct o; simpl; congruence.
Qed.

Lemma ltb_not_ltb (a b : float) : (a <? b) = true -> (b <? a) = false.
Proof. intros H. apply leb_not_ltb, ltb_leb, H. Qed.

(** Numbers that are not NaN are comparable. *)
Lemma not_ltb_leb (a b : float) :
  is_nan a = false -> is_nan b = false -> (a <? b) = false ->
  (b <=? a) = true.
Proof.
  rewrite !is_nan_false. intros Na Nb H.
  destruct (SF.compare_some _ _ Na Nb) as [o E].
  apply leb_compare. rewrite SF.compare_antisym, E. simpl.
  exists (CompOpp o). split; [reflexivity | ].
  destruct o; simpl; try congruence.
  apply ltb_compare in E. congruence.
Qed.

End FloatOrder.

(** ** Zeros and finite numbers *)

Module FloatZero.
Import FloatOrder.

Lemma Prim2SF_zero : Prim2SF 0 = S754_zero false.
Proof. reflexivity. Qed.

Lemma is_zero_spec (x : float) :
  is_zero x = true <-> exists s, Prim2SF x = S754_zero s.
Proof.
  unfold is_zero. rewrite eqb_compare. change (Prim2SF zero) with (S754_zero false).
  split.
  - destruct (Prim2SF x) as [s|[]| |[] ? ?]; simpl; try congruence.
    intros _. exists s. reflexivity.
  - intros [s E]. rewrite E. reflexivity.
Qed.

Lemma is_zero_cases (x : float) : is_zero x = true -> x = 0 \/ x = -0.
Proof.
  rewrite is_zero_spec. intros [s E].
  rewrite <- (SF2Prim_Prim2SF x), E. destruct s; [right | left]; reflexivity.
Qed.

Lemma is_finite_spec (x : float) :
  is_finite x = true ->
  (exists s, Prim2SF x = S754_zero s) \/
  (exists s m e, Prim2SF x = S754_finite s m e).
Proof.
  unfold is_finite. rewrite negb_true_iff, orb_false_iff.
  intros [Hn Hi]. apply is_nan_false in Hn.
  destruct (Prim2SF x) as [s|s| |s m e] eqn:E.
  - left. exists s. reflexivity.
  - exfalso. apply not_true_iff_false in Hi. apply Hi.
    unfold is_infinity. rewrite eqb_compare, abs_spec, E. reflexivity.
  - congruence.
  - right. exists s, m, e. reflexivity.
Qed.

Lemma mul_zero_l (z a : float) :
  is_zero z = true -> is_finite a = true -> is_zero (z * a) = true.
Proof.
  rewrite !is_zero_spec. intros [s E] Ha. rewrite mul_spec, E.
  destruct (is_finite_spec _ Ha) as [[t ->] | [t [m [e ->]]]];
    eexists; reflexivity.
Qed.

Lemma mul_zero_r (a z : float) :
  is_finite a = true -> is_zero z = true -> is_zero (a * z) = true.
Proof.
  rewrite !is_zero_spec. intros Ha [s E]. rewrite mul_spec, E.
  destruct (is_finite_spec _ Ha) as [[t ->] | [t [m [e ->]]]];
    eexists; reflexivity.
Qed.

Lemma is_zero_finite (x : float) : is_zero x = true -> is_finite x = true.
Proof.
  rewrite is_zero_spec. intros [s E]. unfold is_finite.
  rewrite negb_true_iff, orb_false_iff. split.
  - apply is_nan_false. congruence.
  - apply not_true_iff_false. unfold is_infinity.
    rewrite eqb_compare, abs_spec, E. discriminate.
Qed.

Lemma add_zero_zero (a b : float) :
  is_zero a = true -> is_zero b = true -> is_zero (a + b) = true.
Proof.
  rewrite !is_zero_spec. intros [s Ea] [t Eb]. rewrite add_spec, Ea, Eb.
  destruct s, t; eexists; reflexivity.
Qed.

Lemma sqrt_zero (a : float) : is_zero a = true -> is_zero (sqrt a) = true.
Proof.
  rewrite !is_zero_spec. intros [s Ea]. rewrite sqrt_spec, Ea.
  eexists; reflexivity.
Qed.

(** A finite number minus itself is zero. *)
Lemma sub_diag (x : float) : is_finite x = true -> is_zero (x - x) = true.
Proof.
  intros Hx. apply is_zero_spec. rewrite sub_spec.
  destruct (is_finite_spec _ Hx) as [[s ->] | [s [m [e ->]]]].
  - destruct s; eexists; reflexivity.
  - unfold SF64sub, SFsub. rewrite Z.sub_diag. eexists; reflexivity.
Qed.

End FloatZero.

(** ** [Math.min] *)

Module MathMin.
Import FloatOrder.

Lemma min_step_choice (lowest number : float) :
  JS.min_step lowest number = number \/ JS.min_step lowest number = lowest.
Proof.
  unfold JS.min_step.
  destruct (JS.is_neg_zero number && JS.is_pos_zero lowest);
    [left; reflexivity | ].
  destruct (number <? lowest); [left | right]; reflexivity.
Qed.

(** What holds of the start value and of every argument holds of the
    result of the loop. *)
Lemma fold_min_step_invariant (P : float -> Prop) (l : list float) :
  forall acc : float,
    P acc -> (forall x, In x l -> P x) -> P (fold_left JS.min_step l acc).
Proof.
  induction l as [|n rest IH]; intros acc Hacc Hl; simpl.
  - exact Hacc.
  - apply IH.
    + destruct (min_step_choice acc n) as [-> | ->];
        [apply Hl; left; reflexivity | exact Hacc].
    + intros x Hx. apply Hl. right. exact Hx.
Qed.

Lemma no_nan_in (l : list float) (x : float) :
  existsb is_nan l = false -> In x l -> is_nan x = false.
Proof.
  intros H Hx. apply not_true_iff_false. intros Hn.
  apply not_true_iff_false in H. apply H.
  apply existsb_exists. exists x. split; assumption.
Qed.

Lemma all_not_nan (l : list float) :
  (forall x, In x l -> is_nan x = false) -> existsb is_nan l = false.
Proof.
  induction l as [|n rest IH]; intros H; simpl; [reflexivity | ].
  rewrite (H n (or_introl eq_refl)). simpl.
  apply IH. intros x Hx. apply H. right. exact Hx.
Qed.

(** A bound strictly below every argument is strictly below the minimum. *)
Lemma Math_min_above (t : float) (l : list float) :
  (t <? infinity) = true ->
  (forall x, In x l -> (t <? x) = true) ->
  (t <? JS.Math_min l) = true.
Proof.
  intros Hinf Hl. unfold JS.Math_min.
  rewrite all_not_nan.
  - apply fold_min_step_invariant with (P := fun x => (t <? x) = true);
      assumption.
  - intros x Hx. exact (proj2 (ltb_not_nan _ _ (Hl x Hx))).
Qed.

Lemma min_step_le (lowest number : float) :
  is_nan lowest = false -> is_nan number = false ->
  (JS.min_step lowest number <=? lowest) = true /\
  (JS.min_step lowest number <=? number) = true.
Proof.
  intros Hl Hn. unfold JS.min_step.
  destruct (JS.is_neg_zero number && JS.is_pos_zero lowest) eqn:Hz.
  - split; [ | apply leb_refl; exact Hn].
    apply andb_true_iff in Hz. destruct Hz as [Hz1 Hz2].
    unfold JS.is_neg_zero in Hz1. unfold JS.is_pos_zero in Hz2.
    apply andb_true_iff in Hz1. apply andb_true_iff in Hz2.
    apply leb_trans with (b := zero).
    + apply eqb_leb. exact (proj1 Hz1).
    + apply eqb_sym_leb. exact (proj1 Hz2).
  - destruct (number <? lowest) eqn:Hlt.
    + split; [apply ltb_leb; exact Hlt | apply leb_refl; exact Hn].
    + split; [apply leb_refl; exact Hl | ].
      apply not_ltb_leb; assumption.
Qed.

Lemma fold_min_step_le (l : list float) :
  forall acc : float,
    is_nan acc = false -> existsb is_nan l = false ->
    (fold_left JS.min_step l acc <=? acc) = true /\
    (forall x, In x l -> (fold_left JS.min_step l acc <=? x) = true).
Proof.
  induction l as [|n rest IH]; intros acc Hacc Hl; simpl.
  - split; [apply leb_refl; exact Hacc | intros x []].
  - simpl in Hl. apply orb_false_iff in Hl. destruct Hl as [Hn Hrest].
    destruct (min_step_le _ _ Hacc Hn) as [Hle1 Hle2].
    assert (Hacc' : is_nan (JS.min_step acc n) = false)
      by (destruct (min_step_choice acc n) as [-> | ->]; assumption).
    destruct (IH _ Hacc' Hrest) as [H1 H2].
    split.
    + apply leb_trans with (b := JS.min_step acc n); assumption.
    + intros x [<- | Hx].
      * apply leb_trans with (b := JS.min_step acc n); assumption.
      * apply H2. exact Hx.
Qed.

(** Without NaN among the arguments the minimum is below each of them. *)
Lemma Math_min_le (l : list float) (x : float) :
  existsb is_nan l = false -> In x l -> (JS.Math_min l <=? x) = true.
Proof.
  intros Hl Hx. unfold JS.Math_min. rewrite Hl.
  apply fold_min_step_le; [reflexivity | exact Hl | exact Hx].
Qed.

(** The converse: a bound strictly below the minimum is strictly below
    every argument. *)
Lemma Math_min_above_each (t : float) (l : list float) (x : float) :
  (t <? JS.Math_min l) = true -> In x l -> (t <? x) = true.
Proof.
  intros H Hx. destruct (existsb is_nan l) eqn:Hl.
  - unfold JS.Math_min in H. rewrite Hl in H.
    apply ltb_not_nan in H. destruct H as [_ H]. discriminate H.
  - apply ltb_leb_trans with (b := JS.Math_min l); [exact H | ].
    apply Math_min_le; assumption.
Qed.

(** Without NaN the minimum is one of the arguments, or +Infinity. *)
Lemma Math_min_in (l : list float) :
  existsb is_nan l = false ->
  JS.Math_min l = infinity \/ In (JS.Math_min l) l.
Proof.
  intros Hl. unfold JS.Math_min. rewrite Hl.
  apply fold_min_step_invariant
    with (P := fun x => x = infinity \/ In x l).
  - left. reflexivity.
  - intros x Hx. right. exact Hx.
Qed.

(** The minimum is below a bound exactly when no argument is NaN and some
    argument is below the bound. *)
Lemma Math_min_below (t : float) (l : list float) :
  (infinity <? t) = false ->
  ((JS.Math_min l <? t) = true <->
   existsb is_nan l = false /\ exists x, In x l /\ (x <? t) = true).
Proof.
  intros Hinf. split.
  - intros H. destruct (existsb is_nan l) eqn:Hl.
    + unfold JS.Math_min in H. rewrite Hl in H.
      apply ltb_not_nan in H. destruct H as [H _]. discriminate H.
    + split; [reflexivity | ].
      destruct (Math_min_in _ Hl) as [E | Hin].
      * rewrite E in H. congruence.
      * exists (JS.Math_min l). split; assumption.
  - intros [Hl [x [Hx Hlt]]].
    apply leb_ltb_trans with (b := x); [ | exact Hlt].
    apply Math_min_le; assumption.
Qed.

(** One NaN among the arguments makes the minimum NaN. *)
Lemma Math_min_nan (l : list float) :
  existsb is_nan l = true -> JS.Math_min l = nan.
Proof. intros H. unfold JS.Math_min. rewrite H. reflexivity. Qed.

End MathMin.

(** ** Vectors with a zero limb *)

Module VectorFacts.
Import FloatOrder FloatZero.

Lemma is_zero_vec_spec (v : Vector3) :
  is_zero_vec v = true <->
  is_zero (_x v) = true /\ is_zero (_y v) = true /\ is_zero (_z v) = true.
Proof. unfold is_zero_vec. rewrite !andb_true_iff. tauto. Qed.

Lemma vfinite_spec (v : Vector3) :
  vfinite v = true <->
  is_finite (_x v) = true /\ is_finite (_y v) = true /\
  is_finite (_z v) = true.
Proof. unfold vfinite. rewrite !andb_true_iff. tauto. Qed.

(** The length of the zero vector is zero, so [normalize] returns it. *)
Lemma normalize_zero (v : Vector3) :
  is_zero_vec v = true -> Vector3.normalize v = v.
Proof.
  rewrite is_zero_vec_spec. intros [Hx [Hy Hz]].
  unfold Vector3.normalize, Vector3.normalizeFromLength, JS.strict_eq.
  assert (H : is_zero (Vector3.length v) = true).
  { unfold Vector3.length. apply sqrt_zero.
    repeat apply add_zero_zero;
      apply mul_zero_l; try assumption; apply is_zero_finite; assumption. }
  unfold is_zero in H. change zero with 0 in H. rewrite H. reflexivity.
Qed.

Lemma Dot_zero_l (u v : Vector3) :
  is_zero_vec u = true -> vfinite v = true ->
  is_zero (Vector3.Dot u v) = true.
Proof.
  rewrite is_zero_vec_spec, vfinite_spec.
  intros [Hx [Hy Hz]] [Fx [Fy Fz]]. unfold Vector3.Dot.
  repeat apply add_zero_zero; apply mul_zero_l; assumption.
Qed.

Lemma Dot_zero_r (u v : Vector3) :
  vfinite u = true -> is_zero_vec v = true ->
  is_zero (Vector3.Dot u v) = true.
Proof.
  rewrite is_zero_vec_spec, vfinite_spec.
  intros [Fx [Fy Fz]] [Hx [Hy Hz]]. unfold Vector3.Dot.
  repeat apply add_zero_zero; apply mul_zero_r; assumption.
Qed.

(** Two joints at the same finite position: their difference is zero. *)
Lemma subtract_diag (a : Vector3) :
  vfinite a = true -> is_zero_vec (Vector3.subtract a a) = true.
Proof.
  rewrite vfinite_spec, is_zero_vec_spec. intros [Fx [Fy Fz]]. simpl.
  repeat split; apply sub_diag; assumption.
Qed.

Lemma cosines_limb_pairs (p : PosePoints) :
  cosines p = map pair_cos (limb_pairs p).
Proof. reflexivity. Qed.

Lemma pair_cos_degenerate (uv : Vector3 * Vector3) :
  degenerate uv = true -> is_zero (pair_cos uv) = true.
Proof.
  unfold degenerate, pair_cos. rewrite orb_true_iff, !andb_true_iff.
  intros [[Hz Hf] | [Hz Hf]]; rewrite (normalize_zero _ Hz).
  - apply Dot_zero_l; assumption.
  - apply Dot_zero_r; assumption.
Qed.

End VectorFacts.

(** ** The two thresholds *)

Module Thresholds.
Import FloatOrder.

(** No number is above 0.8 and below 0.7. *)
Lemma exclusive (c : float) : JS.gt c 0.8 = true -> JS.lt c 0.7 = false.
Proof.
  unfold JS.gt, JS.lt. intros Hup. apply not_true_iff_false. intros Hdown.
  pose proof (ltb_trans _ _ _ Hup Hdown) as H. vm_compute in H. discriminate.
Qed.

(** In the closed band neither comparison of [update] holds. *)
Lemma dead_band (c : float) :
  (0.7 <=? c) = true -> (c <=? 0.8) = true ->
  JS.gt c 0.8 = false /\ JS.lt c 0.7 = false.
Proof.
  unfold JS.gt, JS.lt. intros Hlo Hhi.
  split; apply leb_not_ltb; assumption.
Qed.

(** The order of the two [if]s against the rule of the specification. *)
Lemma two_ifs_rule (c : float) (previous : bool) :
  (if JS.lt c 0.7 then false
   else if JS.gt c 0.8 then true else previous) = classify_rule c previous.
Proof.
  unfold classify_rule. destruct (JS.gt c 0.8) eqn:Hup.
  - rewrite (exclusive _ Hup). reflexivity.
  - reflexivity.
Qed.

End Thresholds.

(** ** [update] and [load] *)

Section Claims.

Context {HTMLElement Canvas OutfitParams Scene MeshData Rotation Failure
         Base : Type}.
Context {F : Framework HTMLElement Canvas OutfitParams Scene MeshData
                       Rotation Failure Base}.

Implicit Types (this : AvatarRenderer OutfitParams Scene MeshData Rotation Base).
Implicit Types (result : PoseResult) (stream : Canvas) (pose : Pose).

(** A frame without a pose: [handsUp] is reset and the base class runs. *)
Lemma update_absent result stream this :
  first_pose result = None ->
  update result stream this =
  (fst (PoseRenderer_update result stream (super this)),
   set_super (snd (PoseRenderer_update result stream (super this)))
             (set_handsUp false this)).
Proof.
  intros H. unfold update. rewrite H.
  unfold bind, modify, call_super. simpl.
  destruct (PoseRenderer_update result stream (super this)); reflexivity.
Qed.

(** A frame with a pose: the two [if]s, the marker, the base class. *)
Lemma update_present result stream this pose :
  first_pose result = Some pose ->
  let c := cosMin (points pose) in
  let up := if JS.lt c 0.7 then false
            else if JS.gt c 0.8 then true else handsUp this in
  let position := Vector3.Lerp (vec (wristL (points pose)))
                               (vec (wristR (points pose))) 0.5 in
  update result stream this =
  (fst (PoseRenderer_update result stream (super this)),
   set_super (snd (PoseRenderer_update result stream (super this)))
     (set_textModel
        (option_map (fun m => setEnabled up (set_position position m))
                    (textModel this))
        (set_handsUp up this))).
Proof.
  intros H c up position. unfold update. rewrite H. fold c. subst up.
  destruct this as [s m l a h t u o].
  unfold bind, when, modify, call_super, get, ret. simpl.
  destruct (JS.gt c 0.8) eqn:Hup.
  - rewrite (Thresholds.exclusive _ Hup). simpl.
    destruct t; simpl;
      destruct (PoseRenderer_update result stream s); reflexivity.
  - destruct (JS.lt c 0.7); simpl;
      destruct t; simpl;
      destruct (PoseRenderer_update result stream s); reflexivity.
Qed.

Lemma handsUp_present result stream this pose :
  first_pose result = Some pose ->
  handsUp (after (update result stream) this) =
  classify_rule (cosMin (points pose)) (handsUp this).
Proof.
  intros H. unfold after. rewrite (update_present _ _ _ _ H).
  simpl. apply Thresholds.two_ifs_rule.
Qed.

Lemma textModel_present result stream this pose :
  first_pose result = Some pose ->
  textModel (after (update result stream) this) =
  option_map
    (fun m =>
       setEnabled (classify_rule (cosMin (points pose)) (handsUp this))
         (set_position (Vector3.Lerp (vec (wristL (points pose)))
                                     (vec (wristR (points pose))) 0.5) m))
    (textModel this).
Proof.
  intros H. unfold after. rewrite (update_present _ _ _ _ H).
  simpl. rewrite Thresholds.two_ifs_rule. reflexivity.
Qed.

(** [update] ends as the base class's [update] ends. *)
Lemma outcome_update result stream this :
  outcome (update result stream) this =
  fst (PoseRenderer_update result stream (super this)).
Proof.
  unfold outcome. destruct (first_pose result) as [pose|] eqn:H.
  - rewrite (update_present _ _ _ _ H). reflexivity.
  - rewrite (update_absent _ _ _ H). reflexivity.
Qed.

(** [cosMin] is above 0.8 exactly when all four cosines are. *)
Lemma cosMin_above_upper (p : PosePoints) :
  JS.gt (cosMin p) 0.8 = true <->
  (forall c, In c (cosines p) -> JS.gt c 0.8 = true).
Proof.
  unfold JS.gt, cosMin. split.
  - intros H c Hc. exact (MathMin.Math_min_above_each _ _ _ H Hc).
  - intros H. apply MathMin.Math_min_above; [reflexivity | exact H].
Qed.

(** On a frame with a pose and a marker, the marker is shown exactly when
    [handsUp] holds after the frame. *)
Lemma marker_enabled_present result stream this pose m :
  first_pose result = Some pose ->
  textModel this = Some m ->
  option_map (@enabled MeshData Rotation)
             (textModel (after (update result stream) this)) =
  Some (handsUp (after (update result stream) this)).
Proof.
  intros H Hm.
  rewrite (textModel_present _ _ _ _ H), (handsUp_present _ _ _ _ H), Hm.
  reflexivity.
Qed.

(** C1: on a frame with a pose whose [cosMin], the minimum of the four
    cosines, is strictly greater than 0.8, [update] sets [handsUp] to true,
    whatever its previous value. *)
Theorem hands_up_above_upper_threshold result stream this pose :
  first_pose result = Some pose ->
  JS.gt (cosMin (points pose)) 0.8 = true ->
  handsUp (after (update result stream) this) = true.
Proof.
  intros H Hup. rewrite (handsUp_present _ _ _ _ H).
  unfold classify_rule. rewrite Hup. reflexivity.
Qed.

(** C2, amended: on a frame with a pose whose [cosMin] is strictly below
    0.7, [update] sets [handsUp] to false, whatever its previous value;
    [cosMin] is below 0.7 exactly when none of the four cosines is NaN and
    one of them is below 0.7; the two [if]s in sequence compute the
    if / else-if rule of the specification, no number being above 0.8 and
    below 0.7. *)
Theorem hands_down_below_lower_threshold result stream this pose :
  first_pose result = Some pose ->
  (JS.lt (cosMin (points pose)) 0.7 = true ->
   handsUp (after (update result stream) this) = false) /\
  (JS.lt (cosMin (points pose)) 0.7 = true <->
   existsb is_nan (cosines (points pose)) = false /\
   exists c, In c (cosines (points pose)) /\ JS.lt c 0.7 = true) /\
  handsUp (after (update result stream) this) =
    classify_rule (cosMin (points pose)) (handsUp this) /\
  (forall c, JS.gt c 0.8 = true -> JS.lt c 0.7 = false).
Proof.
  intros H. split; [ | split; [ | split]].
  - intros Hdown. rewrite (handsUp_present _ _ _ _ H).
    unfold classify_rule. rewrite Hdown.
    destruct (JS.gt (cosMin (points pose)) 0.8) eqn:Hup; [ | reflexivity].
    rewrite (Thresholds.exclusive _ Hup) in Hdown. discriminate Hdown.
  - apply MathMin.Math_min_below. reflexivity.
  - apply (handsUp_present _ _ _ _ H).
  - apply Thresholds.exclusive.
Qed.

(** C3: on a frame with a pose whose [cosMin] lies in the closed band from
    0.7 to 0.8, both ends included, [update] leaves [handsUp] as it was; when
    [handsUp] changes on a frame with a pose, [cosMin] is above 0.8 (and
    [handsUp] becomes true) or below 0.7 (and it becomes false). *)
Theorem hands_state_kept_in_dead_band result stream this pose :
  first_pose result = Some pose ->
  ((0.7 <=? cosMin (points pose)) = true ->
   (cosMin (points pose) <=? 0.8) = true ->
   handsUp (after (update result stream) this) = handsUp this) /\
  (cosMin (points pose) = 0.7 \/ cosMin (points pose) = 0.8 ->
   handsUp (after (update result stream) this) = handsUp this) /\
  (handsUp (after (update result stream) this) <> handsUp this ->
   JS.gt (cosMin (points pose)) 0.8 = true /\
     handsUp (after (update result stream) this) = true \/
   JS.lt (cosMin (points pose)) 0.7 = true /\
     handsUp (after (update result stream) this) = false).
Proof.
  intros H. rewrite (handsUp_present _ _ _ _ H). unfold classify_rule.
  repeat split.
  - intros Hlo Hhi.
    destruct (Thresholds.dead_band _ Hlo Hhi) as [-> ->]. reflexivity.
  - intros [-> | ->]; reflexivity.
  - destruct (JS.gt (cosMin (points pose)) 0.8);
      [intros _; left; split; reflexivity | ].
    destruct (JS.lt (cosMin (points pose)) 0.7);
      [intros _; right; split; reflexivity | ].
    intros Hne. exfalso. apply Hne. reflexivity.
Qed.

(** C4: on a frame whose pose result holds no pose, [update] sets [handsUp]
    to false, leaves the marker, its position included, as it was, and ends
    as the base class's [update] ends: it raises no error of its own. *)
Theorem no_pose_resets_hands_up result stream this :
  first_pose result = None ->
  handsUp (after (update result stream) this) = false /\
  textModel (after (update result stream) this) = textModel this /\
  outcome (update result stream) this =
    fst (PoseRenderer_update result stream (super this)).
Proof.
  intros H. unfold after, outcome. rewrite (update_absent _ _ _ H).
  repeat split.
Qed.

(** No rounding on the way makes [l + (r - l) * 0.5] the exact midpoint. *)
Lemma rounds_nowhere_midpoint (l r : float) :
  rounds_nowhere l r = true ->
  exact_midpoint (l + (r - l) * 0.5) l r = true.
Proof.
  unfold rounds_nowhere, exact_midpoint.
  destruct (value l) as [vl|]; [ | discriminate].
  destruct (value r) as [vr|]; [ | discriminate].
  destruct (value (r - l)) as [vd|]; [ | discriminate].
  destruct (value ((r - l) * 0.5)) as [vh|]; [ | discriminate].
  destruct (value (l + (r - l) * 0.5)) as [vp|]; [ | discriminate].
  rewrite !andb_true_iff, !Qeq_bool_iff. intros [[Hd Hh] Hp]. lra.
Qed.

(** C6, amended: on a frame with a pose, a marker being there, the position
    [update] writes to the marker is the linear interpolation at 0.5 between
    the left and the right wrist, [l + (r - l) * 0.5] computed in binary64 in
    each coordinate; it is the exact midpoint of the wrists when none of
    these operations rounds or overflows, as for wrists at (0,0,0) and
    (2,0,0), where it is (1,0,0). *)
Theorem marker_at_wrist_midpoint result stream this pose m :
  first_pose result = Some pose ->
  textModel this = Some m ->
  let l := vec (wristL (points pose)) in
  let r := vec (wristR (points pose)) in
  let written := mkVector3 (_x l + (_x r - _x l) * 0.5)
                           (_y l + (_y r - _y l) * 0.5)
                           (_z l + (_z r - _z l) * 0.5) in
  option_map (@position MeshData Rotation)
             (textModel (after (update result stream) this)) =
    Some written /\
  (rounds_nowhere3 l r = true -> exact_midpoint3 written l r = true) /\
  Vector3.Lerp (mkVector3 0 0 0) (mkVector3 2 0 0) 0.5 = mkVector3 1 0 0.
Proof.
  intros H Hm l r written. rewrite (textModel_present _ _ _ _ H), Hm.
  split; [reflexivity | ]. split; [ | reflexivity].
  unfold rounds_nowhere3, exact_midpoint3. rewrite !andb_true_iff.
  intros [[Hx Hy] Hz].
  repeat split; apply rounds_nowhere_midpoint; assumption.
Qed.

(** C7, amended: [update] raises no error of its own, whether a pose is
    there or not and also when a limb difference vector is zero, as it is for
    two joints at the same finite position; [normalize] returns a zero vector
    as it is; a cosine one of whose two limbs is zero is itself zero when the
    direction of the other limb has finite components; and when moreover none
    of the four cosines is NaN, [cosMin] is at most 0 and [handsUp] becomes
    false. *)
Theorem zero_limb_lowers_hands result stream this :
  outcome (update result stream) this =
    fst (PoseRenderer_update result stream (super this)) /\
  (forall a, vfinite a = true ->
             is_zero_vec (Vector3.subtract a a) = true) /\
  (forall v, is_zero_vec v = true -> Vector3.normalize v = v) /\
  (forall pose uv,
     first_pose result = Some pose ->
     In uv (limb_pairs (points pose)) ->
     degenerate uv = true ->
     In (pair_cos uv) (cosines (points pose)) /\
     is_zero (pair_cos uv) = true /\
     (existsb is_nan (cosines (points pose)) = false ->
      (cosMin (points pose) <=? 0) = true /\
      handsUp (after (update result stream) this) = false)).
Proof.
  split; [apply outcome_update | ].
  split; [exact VectorFacts.subtract_diag | ].
  split; [exact VectorFacts.normalize_zero | ].
  intros pose uv H Hin Hdeg.
  assert (Hcos : In (pair_cos uv) (cosines (points pose))).
  { rewrite VectorFacts.cosines_limb_pairs. apply in_map. exact Hin. }
  assert (Hzero : is_zero (pair_cos uv) = true)
    by (apply VectorFacts.pair_cos_degenerate; exact Hdeg).
  split; [exact Hcos | ].
  split; [exact Hzero | ].
  intros Hnan.
  assert (Hle : (cosMin (points pose) <=? 0) = true).
  { apply FloatOrder.leb_trans with (b := pair_cos uv).
    - apply MathMin.Math_min_le; assumption.
    - apply FloatOrder.eqb_leb. exact Hzero. }
  split; [exact Hle | ].
  rewrite (handsUp_present _ _ _ _ H). unfold classify_rule.
  assert (Hdown : JS.lt (cosMin (points pose)) 0.7 = true).
  { unfold JS.lt. apply FloatOrder.leb_ltb_trans with (b := 0);
      [exact Hle | reflexivity]. }
  rewrite Hdown.
  destruct (JS.gt (cosMin (points pose)) 0.8) eqn:Hup; [ | reflexivity].
  rewrite (Thresholds.exclusive _ Hup) in Hdown. discriminate Hdown.
Qed.

(** C8: on every frame [update] writes, of the marker, only the position
    and the enabled flag: the marker is there after the frame exactly when
    it was there before, with the same id, scaling, rotation and other data;
    the model, the lights, the url and the outfit are left as they were. *)
Theorem update_writes_position_and_enabled_only result stream this :
  match textModel this, textModel (after (update result stream) this) with
  | Some m, Some m' =>
      mesh_id m' = mesh_id m /\ scaling m' = scaling m /\
      rotation m' = rotation m /\ mesh_data m' = mesh_data m
  | None, None => True
  | _, _ => False
  end /\
  model (after (update result stream) this) = model this /\
  light (after (update result stream) this) = light this /\
  ambient (after (update result stream) this) = ambient this /\
  url (after (update result stream) this) = url this /\
  outfit (after (update result stream) this) = outfit this.
Proof.
  unfold after. destruct (first_pose result) as [pose|] eqn:H.
  - rewrite (update_present _ _ _ _ H). simpl.
    destruct (textModel this); simpl; repeat split.
  - rewrite (update_absent _ _ _ H). simpl.
    destruct (textModel this); simpl; repeat split.
Qed.

(** C9: on a frame whose pose result holds no pose, [update] returns before
    the marker block: the marker, its enabled flag included, is left as it
    was, so a marker that was enabled stays enabled although [handsUp] is
    now false. *)
Theorem marker_untouched_without_pose result stream this :
  first_pose result = None ->
  textModel (after (update result stream) this) = textModel this /\
  handsUp (after (update result stream) this) = false /\
  (forall m, textModel this = Some m -> enabled m = true ->
   option_map (@enabled MeshData Rotation)
              (textModel (after (update result stream) this)) = Some true).
Proof.
  intros H. unfold after. rewrite (update_absent _ _ _ H). simpl.
  repeat split. intros m -> Hm. simpl. rewrite Hm. reflexivity.
Qed.


End Claims.

(** ** The claims on sample frames *)

Import Sample.

Lemma hands_up_above_upper_threshold_witness :
  handsUp (after (update (frame arms_up) tt) (showing false)) = true.
Proof.
  apply (hands_up_above_upper_threshold (F := headless)
           (frame arms_up) tt (showing false) (mkPose arms_up)).
  - reflexivity.
  - vm_compute. reflexivity.
Defined.

Lemma hands_down_below_lower_threshold_witness :
  handsUp (after (update (frame arms_down) tt) (showing true)) = false.
Proof.
  destruct (hands_down_below_lower_threshold (F := headless)
              (frame arms_down) tt (showing true) (mkPose arms_down) eq_refl)
    as [Hdown _].
  apply Hdown. vm_compute. reflexivity.
Defined.

(** A cosine below 0.7 next to a NaN cosine: [handsUp] stays true. *)
Lemma any_cosine_below_counterexample :
  In (armRCos far_hip_arm_down) (cosines far_hip_arm_down) /\
  JS.lt (armRCos far_hip_arm_down) 0.7 = true /\
  handsUp (after (update (frame far_hip_arm_down) tt) (showing true)) = true /\
  ~ (forall (this : Renderer) result stream pose,
       first_pose result = Some pose ->
       (exists c, In c (cosines (points pose)) /\ JS.lt c 0.7 = true) ->
       handsUp (after (update result stream) this) = false).
Proof.
  split; [right; left; reflexivity | ].
  split; [vm_compute; reflexivity | ].
  split; [vm_compute; reflexivity | ].
  intros H.
  specialize (H (showing true) (frame far_hip_arm_down) tt
                (mkPose far_hip_arm_down) eq_refl).
  assert (Hc : exists c, In c (cosines far_hip_arm_down) /\
                         JS.lt c 0.7 = true).
  { exists (armRCos far_hip_arm_down).
    split; [right; left; reflexivity | vm_compute; reflexivity]. }
  specialize (H Hc). vm_compute in H. discriminate H.
Qed.

Lemma hands_state_kept_in_dead_band_witness :
  cosMin arms_at_bound = 0.8 /\
  handsUp (after (update (frame arms_at_bound) tt) (showing false)) = false /\
  handsUp (after (update (frame arms_at_bound) tt) (showing true)) = true.
Proof.
  split; [vm_compute; reflexivity | ].
  split.
  - destruct (hands_state_kept_in_dead_band (F := headless)
                (frame arms_at_bound) tt (showing false)
                (mkPose arms_at_bound) eq_refl) as [Hband _].
    apply Hband; vm_compute; reflexivity.
  - destruct (hands_state_kept_in_dead_band (F := headless)
                (frame arms_at_bound) tt (showing true)
                (mkPose arms_at_bound) eq_refl) as [Hband _].
    apply Hband; vm_compute; reflexivity.
Defined.

Lemma no_pose_resets_hands_up_witness :
  handsUp (after (update no_pose tt) (showing true)) = false /\
  textModel (after (update no_pose tt) (showing true)) =
    textModel (showing true) /\
  outcome (update no_pose tt) (showing true) = Resolved tt.
Proof.
  exact (no_pose_resets_hands_up (F := headless) no_pose tt (showing true)
           eq_refl).
Defined.

(** C5: the marker is to be enabled exactly when [handsUp] holds after the
    frame.  On a frame without a pose the code does otherwise: for a
    renderer whose hands were up and whose marker is shown, [handsUp] becomes
    false and the marker stays enabled. *)
Theorem marker_left_enabled_without_pose :
  handsUp (showing true) = true /\
  option_map (@enabled unit unit) (textModel (showing true)) = Some true /\
  first_pose no_pose = None /\
  handsUp (after (update no_pose tt) (showing true)) = false /\
  option_map (@enabled unit unit)
             (textModel (after (update no_pose tt) (showing true))) =
    Some true.
Proof. vm_compute. repeat split. Qed.

Lemma marker_at_wrist_midpoint_witness :
  option_map (@position unit unit)
    (textModel (after (update (frame wrists_apart) tt) (showing false))) =
    Some (mkVector3 1 0 0) /\
  exact_midpoint3 (mkVector3 1 0 0) (vec (wristL wrists_apart))
                  (vec (wristR wrists_apart)) = true.
Proof.
  destruct (marker_at_wrist_midpoint (F := headless)
              (frame wrists_apart) tt (showing false)
              (mkPose wrists_apart) (mesh "__root__") eq_refl eq_refl)
    as [Hpos [Hmid _]].
  split; [exact Hpos | ].
  apply Hmid. vm_compute. reflexivity.
Defined.

(** Wrists at x = 0.3 and x = 1.1: the marker is put at x = 0.7, which is
    not half way between these two numbers; wrists at x = -1e308 and
    x = 1e308: it is put at Infinity. *)
Lemma marker_midpoint_counterexample :
  option_map (@position unit unit)
    (textModel (after (update (frame Unmarked.wrists_uneven) tt)
                      (showing false))) = Some (mkVector3 0.7 0 0) /\
  exact_midpoint 0.7 0.3 1.1 = false /\
  (-1e308) + (1e308 - (-1e308)) * 0.5 = infinity /\
  ~ (forall (this : Renderer) result stream pose m,
       first_pose result = Some pose ->
       textModel this = Some m ->
       exists m',
         textModel (after (update result stream) this) = Some m' /\
         exact_midpoint3 (position m') (vec (wristL (points pose)))
                         (vec (wristR (points pose))) = true).
Proof.
  split; [vm_compute; reflexivity | ].
  split; [vm_compute; reflexivity | ].
  split; [vm_compute; reflexivity | ].
  intros H.
  destruct (H (showing false) (frame Unmarked.wrists_uneven) tt
              (mkPose Unmarked.wrists_uneven) (mesh "__root__")
              eq_refl eq_refl) as [m' [Hm Hmid]].
  vm_compute in Hm. injection Hm as <-.
  vm_compute in Hmid. discriminate Hmid.
Qed.

Lemma zero_limb_lowers_hands_witness :
  is_zero (armLCos elbow_on_shoulder) = true /\
  (cosMin elbow_on_shoulder <=? 0) = true /\
  handsUp (after (update (frame elbow_on_shoulder) tt) (showing true)) = false.
Proof.
  destruct (zero_limb_lowers_hands (F := headless)
              (frame elbow_on_shoulder) tt (showing true))
    as [_ [_ [_ H]]].
  destruct (H (mkPose elbow_on_shoulder)
              (Vector3.subtract (vec (shoulderL elbow_on_shoulder))
                                (vec (hipL elbow_on_shoulder)),
               Vector3.subtract (vec (elbowL elbow_on_shoulder))
                                (vec (shoulderL elbow_on_shoulder))))
    as [_ [Hzero Hdown]].
  - reflexivity.
  - left. reflexivity.
  - vm_compute. reflexivity.
  - split; [exact Hzero | ].
    apply Hdown. vm_compute. reflexivity.
Defined.

(** The left elbow on the left shoulder, the left hip so far away that the
    torso vector overflows: the cosine of torso and upper arm is NaN, not 0,
    and [handsUp] stays true. *)
Lemma zero_limb_counterexample :
  vec (elbowL far_hip) = vec (shoulderL far_hip) /\
  is_nan (armLCos far_hip) = true /\
  handsUp (after (update (frame far_hip) tt) (showing true)) = true /\
  ~ (forall (this : Renderer) result stream pose uv,
       first_pose result = Some pose ->
       In uv (limb_pairs (points pose)) ->
       is_zero_vec (fst uv) || is_zero_vec (snd uv) = true ->
       is_zero (pair_cos uv) = true /\
       handsUp (after (update result stream) this) = false).
Proof.
  split; [reflexivity | ].
  split; [vm_compute; reflexivity | ].
  split; [vm_compute; reflexivity | ].
  intros H.
  specialize (H (showing true) (frame far_hip) tt (mkPose far_hip)
                (Vector3.subtract (vec (shoulderL far_hip))
                                  (vec (hipL far_hip)),
                 Vector3.subtract (vec (elbowL far_hip))
                                  (vec (shoulderL far_hip)))
                eq_refl (or_introl eq_refl)).
  destruct H as [_ H]; [vm_compute; reflexivity | ].
  vm_compute in H. discriminate H.
Qed.

Lemma marker_untouched_without_pose_witness :
  handsUp (after (update (mkPoseResult None) tt) (showing true)) = false /\
  option_map (@enabled unit unit)
    (textModel (after (update (mkPoseResult None) tt) (showing true))) =
  Some true.
Proof.
  destruct (marker_untouched_without_pose (F := headless)
              (mkPoseResult None) tt (showing true) eq_refl)
    as [_ [Hup Hm]].
  split; [exact Hup | ].
  apply (Hm (mesh "__root__")); reflexivity.
Defined.



(** * The order [Math.min] follows *)

Module MinOrder.
Import FloatOrder FloatZero.

(** Numbers that compare equal are the same number, or two zeros. *)
Lemma SFcompare_Eq (a b : spec_float) :
  SFcompare a b = Some Eq ->
  a = b \/ exists s t, a = S754_zero s /\ b = S754_zero t.
Proof.
  destruct a as [s|s| |s m e], b as [t|t| |t m' e']; simpl; intros H;
    try discriminate H; try (destruct s; discriminate H);
    try (destruct t; discriminate H).
  - right. exists s, t. split; reflexivity.
  - left. destruct s, t; try discriminate H; reflexivity.
  - left. injection H as H.
    assert (E : s = t /\ e = e' /\ m = m').
    { destruct s, t; try discriminate H;
        destruct (Z.compare_spec e e'); try discriminate H; subst;
        change (Pos.compare_cont Eq m m') with (Pos.compare m m') in H;
        destruct (Pos.compare_spec m m'); try discriminate H; subst;
        repeat split. }
    destruct E as [-> [-> ->]]. reflexivity.
Qed.

Lemma eqb_cases (x y : float) :
  (x =? y) = true -> x = y \/ is_zero x = true /\ is_zero y = true.
Proof.
  rewrite eqb_compare. intros H.
  destruct (SFcompare_Eq _ _ H) as [E | [s [t [Ex Ey]]]].
  - left. apply Prim2SF_inj. exact E.
  - right. split; apply is_zero_spec; eexists; eassumption.
Qed.

Lemma not_ltb_eqb (x y : float) :
  is_nan x = false -> is_nan y = false ->
  (x <? y) = false -> (y <? x) = false -> (x =? y) = true.
Proof.
  intros Nx Ny Hxy Hyx.
  pose proof (not_ltb_leb _ _ Nx Ny Hxy) as Hle.
  pose proof (not_ltb_leb _ _ Ny Nx Hyx) as Hge.
  apply leb_compare in Hle. apply leb_compare in Hge.
  destruct Hle as [o [E G]]. destruct Hge as [o' [E' G']].
  apply eqb_compare. rewrite E'. f_equal.
  rewrite SF.compare_antisym, E in E'. simpl in E'. injection E' as E'.
  destruct o; simpl in E'; congruence.
Qed.

Lemma neg_zero_eq (x : float) : JS.is_neg_zero x = true -> x = (-0)%float.
Proof.
  unfold JS.is_neg_zero. intros H. apply andb_true_iff in H.
  destruct H as [Hz Hs].
  destruct (is_zero_cases _ Hz) as [-> | ->]; [discriminate Hs | reflexivity].
Qed.

Lemma pos_zero_eq (x : float) : JS.is_pos_zero x = true -> x = 0%float.
Proof.
  unfold JS.is_pos_zero. intros H. apply andb_true_iff in H.
  destruct H as [Hz Hs].
  destruct (is_zero_cases _ Hz) as [-> | ->]; [reflexivity | discriminate Hs].
Qed.

Lemma min_prefers_cases (x y : float) :
  min_prefers x y = true ->
  x = (-0)%float /\ y = 0%float \/ (x <? y) = true.
Proof.
  unfold min_prefers. intros H. apply orb_true_iff in H.
  destruct H as [H | H]; [left | right; exact H].
  apply andb_true_iff in H. destruct H as [Hx Hy].
  split; [apply neg_zero_eq | apply pos_zero_eq]; assumption.
Qed.

(** [min_step] keeps the one of the two that [Math.min] prefers. *)
Lemma min_step_prefers (lowest number : float) :
  JS.min_step lowest number =
  if min_prefers number lowest then number else lowest.
Proof.
  unfold JS.min_step, min_prefers.
  destruct (JS.is_neg_zero number && JS.is_pos_zero lowest); reflexivity.
Qed.

Lemma min_prefers_not_nan (x y : float) :
  min_prefers x y = true -> is_nan x = false /\ is_nan y = false.
Proof.
  intros H. destruct (min_prefers_cases _ _ H) as [[-> ->] | Hlt].
  - split; reflexivity.
  - apply ltb_not_nan. exact Hlt.
Qed.

Lemma min_prefers_asym (x y : float) :
  min_prefers x y = true -> min_prefers y x = false.
Proof.
  intros H. destruct (min_prefers_cases _ _ H) as [[-> ->] | Hlt].
  - reflexivity.
  - apply not_true_iff_false. intros H'.
    destruct (min_prefers_cases _ _ H') as [[-> ->] | Hgt].
    + discriminate Hlt.
    + rewrite (ltb_not_ltb _ _ Hlt) in Hgt. discriminate Hgt.
Qed.

Lemma min_prefers_trans (x y z : float) :
  min_prefers x y = true -> min_prefers y z = true ->
  min_prefers x z = true.
Proof.
  intros Hxy Hyz. unfold min_prefers. apply orb_true_iff.
  destruct (min_prefers_cases _ _ Hxy) as [[-> ->] | Hlt];
    destruct (min_prefers_cases _ _ Hyz) as [[E ->] | Hlt'].
  - discriminate Hxy || (left; reflexivity).
  - right. apply leb_ltb_trans with (b := 0%float);
      [reflexivity | exact Hlt'].
  - subst y. right. apply ltb_leb_trans with (b := (-0)%float);
      [exact Hlt | reflexivity].
  - right. apply ltb_trans with (b := y); assumption.
Qed.

(** Two numbers neither of which is preferred to the other are the same. *)
Lemma min_prefers_antisym (x y : float) :
  is_nan x = false -> is_nan y = false ->
  min_prefers x y = false -> min_prefers y x = false -> x = y.
Proof.
  intros Nx Ny Hxy Hyx.
  unfold min_prefers in Hxy, Hyx.
  apply orb_false_iff in Hxy. apply orb_false_iff in Hyx.
  destruct Hxy as [Zxy Lxy]. destruct Hyx as [Zyx Lyx].
  destruct (eqb_cases _ _ (not_ltb_eqb _ _ Nx Ny Lxy Lyx))
    as [E | [Zx Zy]]; [exact E | ].
  destruct (is_zero_cases _ Zx) as [-> | ->];
    destruct (is_zero_cases _ Zy) as [-> | ->];
    try reflexivity; [discriminate Zyx | discriminate Zxy].
Qed.

(** Nothing is preferred to what the loop of [Math.min] ends with, which is
    the start value or one of the arguments. *)
Lemma fold_min_step_least (l : list float) :
  forall acc : float,
    is_nan acc = false -> existsb is_nan l = false ->
    In (fold_left JS.min_step l acc) (acc :: l) /\
    (forall x, In x (acc :: l) ->
               min_prefers x (fold_left JS.min_step l acc) = false).
Proof.
  induction l as [|n rest IH]; intros acc Hacc Hl; simpl.
  - split; [left; reflexivity | ].
    intros x [<- | []]. apply not_true_iff_false. intros H.
    rewrite (min_prefers_asym _ _ H) in H. discriminate H.
  - simpl in Hl. apply orb_false_iff in Hl. destruct Hl as [Hn Hrest].
    assert (Hacc' : is_nan (JS.min_step acc n) = false)
      by (destruct (MathMin.min_step_choice acc n) as [-> | ->]; assumption).
    destruct (IH _ Hacc' Hrest) as [Hin Hleast]. split.
    + destruct Hin as [E | Hin]; [ | right; right; exact Hin].
      rewrite <- E.
      destruct (MathMin.min_step_choice acc n) as [-> | ->];
        [right; left | left]; reflexivity.
    + assert (Hstep : forall x, x = acc \/ x = n ->
                min_prefers x (JS.min_step acc n) = false).
      { intros x Hx. rewrite min_step_prefers.
        destruct (min_prefers n acc) eqn:Hp.
        - destruct Hx as [-> | ->].
          + apply min_prefers_asym. exact Hp.
          + apply not_true_iff_false. intros H.
            rewrite (min_prefers_asym _ _ H) in H. discriminate H.
        - destruct Hx as [-> | ->]; [ | exact Hp].
          apply not_true_iff_false. intros H.
          rewrite (min_prefers_asym _ _ H) in H. discriminate H. }
      intros x Hx.
      assert (Hx' : (x = acc \/ x = n) \/ In x rest)
        by (destruct Hx as [<- | [<- | Hx]]; auto).
      destruct Hx' as [Hx' | Hx'];
        [ | apply Hleast; right; exact Hx'].
      apply not_true_iff_false. intros H.
      pose proof (Hleast _ (or_introl eq_refl)) as Hp.
      destruct (min_prefers (fold_left JS.min_step rest (JS.min_step acc n))
                            (JS.min_step acc n)) eqn:Hq.
      * pose proof (min_prefers_trans _ _ _ H Hq) as Ht.
        rewrite (Hstep x Hx') in Ht. discriminate Ht.
      * assert (E : JS.min_step acc n =
                    fold_left JS.min_step rest (JS.min_step acc n)).
        { apply min_prefers_antisym.
          - exact Hacc'.
          - apply (MathMin.fold_min_step_invariant
                     (fun x => is_nan x = false)); [exact Hacc' | ].
            intros y Hy. exact (MathMin.no_nan_in _ _ Hrest Hy).
          - exact Hp.
          - exact Hq. }
        rewrite <- E in H. rewrite (Hstep x Hx') in H. discriminate H.
Qed.

(** [Math.min] depends on which numbers it is given, not on their order. *)
Lemma Math_min_same_elements (l l' : list float) :
  (forall x, In x l <-> In x l') -> JS.Math_min l = JS.Math_min l'.
Proof.
  intros Hsame. unfold JS.Math_min.
  assert (Hnan : existsb is_nan l = existsb is_nan l').
  { apply eq_true_iff_eq. rewrite !existsb_exists.
    split; intros [x [Hx Hn]]; exists x; split; try exact Hn;
      apply Hsame; exact Hx. }
  rewrite <- Hnan. destruct (existsb is_nan l) eqn:Hl; [reflexivity | ].
  symmetry in Hnan.
  destruct (fold_min_step_least l infinity eq_refl Hl) as [Hin Hleast].
  destruct (fold_min_step_least l' infinity eq_refl Hnan) as [Hin' Hleast'].
  assert (Hsame' : forall x, In x (infinity :: l) <-> In x (infinity :: l')).
  { intros x. simpl. rewrite (Hsame x). tauto. }
  apply min_prefers_antisym.
  - apply (MathMin.fold_min_step_invariant (fun x => is_nan x = false));
      [reflexivity | ].
    intros y Hy. exact (MathMin.no_nan_in _ _ Hl Hy).
  - apply (MathMin.fold_min_step_invariant (fun x => is_nan x = false));
      [reflexivity | ].
    intros y Hy. exact (MathMin.no_nan_in _ _ Hnan Hy).
  - apply Hleast'. apply Hsame'. exact Hin.
  - apply Hleast. apply Hsame'. exact Hin'.
Qed.

(** Of at least one number, none NaN, [Math.min] returns one of them. *)
Lemma Math_min_in_nonempty (l : list float) :
  l <> [] -> existsb is_nan l = false -> In (JS.Math_min l) l.
Proof.
  intros Hne Hl. unfold JS.Math_min. rewrite Hl.
  destruct (fold_min_step_least l infinity eq_refl Hl) as [Hin Hleast].
  destruct Hin as [E | Hin]; [ | exact Hin].
  destruct l as [|x rest]; [congruence | ].
  rewrite <- E.
  assert (Ex : x = infinity).
  { simpl in Hl. apply orb_false_iff in Hl. destruct Hl as [Hx _].
    apply min_prefers_antisym; [exact Hx | reflexivity | | ].
    - rewrite E. apply Hleast. right. left. reflexivity.
    - unfold min_prefers. apply orb_false_iff. split; [reflexivity | ].
      apply leb_not_ltb. apply not_ltb_leb; [reflexivity | exact Hx | ].
      apply not_true_iff_false. intros H.
      apply ltb_compare in H. change (Prim2SF infinity)
        with (S754_infinity false) in H.
      destruct (Prim2SF x) as [[]|[]| |[] ? ?]; discriminate H. }
  left. exact Ex.
Qed.

End MinOrder.

(** * Further properties of the renderer *)

(** ** Meshes found by id *)

Section Meshes.

Context {MeshData Rotation : Type}.

Implicit Types (m : AbstractMesh MeshData Rotation).
Implicit Types (meshes : list (AbstractMesh MeshData Rotation)).

(** The mesh [find_id] returns is in the list and has the id asked for. *)
Lemma find_id_some name meshes m :
  find_id name meshes = Some m -> In m meshes /\ mesh_id m = name.
Proof.
  unfold find_id. intros H. apply find_some in H. destruct H as [Hin Hid].
  split; [exact Hin | ]. apply String.eqb_eq. exact Hid.
Qed.

(** [find_id] finds nothing exactly when no mesh has the id. *)
Lemma find_id_none name meshes :
  find_id name meshes = None <->
  (forall m, In m meshes -> mesh_id m <> name).
Proof.
  unfold find_id. split.
  - intros H m Hin Hid.
    pose proof (find_none _ _ H m Hin) as Hn. simpl in Hn.
    rewrite Hid, String.eqb_refl in Hn. discriminate Hn.
  - intros H. induction meshes as [|a rest IH]; simpl; [reflexivity | ].
    destruct (String.eqb (mesh_id a) name) eqn:E.
    + apply String.eqb_eq in E. exfalso.
      exact (H a (or_introl eq_refl) E).
    + apply IH. intros m Hin. apply H. right. exact Hin.
Qed.

(** After a change that keeps ids, the changed mesh is the one found under
    the name, and the meshes found under other names are as before. *)
Lemma find_id_change_id name other (f : AbstractMesh MeshData Rotation ->
                                          AbstractMesh MeshData Rotation)
    meshes :
  (forall m, mesh_id (f m) = mesh_id m) ->
  find_id name (change_id name f meshes) =
    option_map f (find_id name meshes) /\
  (other <> name ->
   find_id other (change_id name f meshes) = find_id other meshes).
Proof.
  intros Hf. unfold find_id. split.
  - induction meshes as [|a rest IH]; simpl; [reflexivity | ].
    destruct (String.eqb (mesh_id a) name) eqn:E; simpl.
    + rewrite Hf, E. reflexivity.
    + rewrite E. exact IH.
  - intros Hne. induction meshes as [|a rest IH]; simpl; [reflexivity | ].
    destruct (String.eqb (mesh_id a) name) eqn:E; simpl.
    + rewrite Hf. apply String.eqb_eq in E.
      assert (En : String.eqb (mesh_id a) other = false).
      { apply String.eqb_neq. congruence. }
      rewrite En. reflexivity.
    + destruct (String.eqb (mesh_id a) other); [reflexivity | exact IH].
Qed.


End Meshes.

(** ** [setOutfit], [setModel], [setupScene] and [load] step by step *)

Section Loading.

Context {HTMLElement Canvas OutfitParams Scene MeshData Rotation Failure
         Base : Type}.
Context {F : Framework HTMLElement Canvas OutfitParams Scene MeshData
                       Rotation Failure Base}.

Implicit Types (this : AvatarRenderer OutfitParams Scene MeshData Rotation Base).
Implicit Types (gltf : list (AbstractMesh MeshData Rotation)).

(** [setOutfit] clears, loads and fits. *)
Lemma setOutfit_run url_arg outfit_arg this :
  setOutfit url_arg outfit_arg this =
  match LoadAssetContainerAsync "" url_arg (scene_without_model this)
                                (Some ".glb"%string) with
  | Resolved gltf => (Resolved tt, fitted gltf url_arg outfit_arg this)
  | Rejected e => (Rejected e, cleared url_arg outfit_arg this)
  end.
Proof.
  destruct this as [[ld sc b] m l a h t u o].
  unfold setOutfit, scene_without_model, fitted, cleared, bind, get, modify,
    on_scene, await, ret.
  destruct m as [m|]; simpl;
    match goal with
    | |- context [LoadAssetContainerAsync ?r ?f ?s ?e] =>
        destruct (LoadAssetContainerAsync r f s e)
    end; reflexivity.
Qed.

Lemma setModel_run url_arg this :
  setModel url_arg this = setOutfit url_arg (outfit this) this.
Proof. reflexivity. Qed.

(** [setupScene] fits the model, lights the scene and loads the text. *)
Lemma setupScene_run this :
  setupScene this =
  match LoadAssetContainerAsync "" (url this) (scene_without_model this)
                                (Some ".glb"%string) with
  | Rejected e => (Rejected e, cleared (url this) (outfit this) this)
  | Resolved g1 =>
      let s1 := lit_up (fitted g1 (url this) (outfit this) this) in
      match LoadAssetContainerAsync "./" "text.glb" (scene (super s1))
                                    None with
      | Rejected e => (Rejected e, s1)
      | Resolved g2 => (Resolved tt, with_text g2 s1)
      end
  end.
Proof.
  unfold setupScene, bind at 1. unfold get at 1.
  unfold bind at 1. rewrite setModel_run, setOutfit_run.
  destruct (LoadAssetContainerAsync "" (url this) (scene_without_model this)
                                    (Some ".glb"%string)) as [g1|e];
    [ | reflexivity].
  unfold fitted, lit_up, with_text, lit, bind, get, modify, on_scene, await.
  simpl.
  destruct (plugin_setOutfit _ _ _) as [ld [sc|] b]; simpl;
    match goal with
    | |- context [LoadAssetContainerAsync ?r ?f ?s ?e] =>
        destruct (LoadAssetContainerAsync r f s e)
    end; reflexivity.
Qed.

Lemma load_run this :
  load this =
  match loaded (super this), scene (super this) with
  | false, Some _ =>
      match setupScene this with
      | (Resolved _, s) =>
          (fst (PoseRenderer_load (super s)),
           set_super (snd (PoseRenderer_load (super s))) s)
      | (Rejected e, s) => (Rejected e, s)
      end
  | _, _ => (Resolved tt, this)
  end.
Proof.
  unfold load, bind, get, ret, call_super.
  destruct (loaded (super this)); [reflexivity | ].
  destruct (scene (super this)) as [sc|]; [ | reflexivity].
  destruct (setupScene this) as [[[]|e] s]; [ | reflexivity].
  destruct (PoseRenderer_load (super s)); reflexivity.
Qed.

(** [adjust_text] changes the scaling and the rotation of a mesh only. *)
Lemma adjust_text_keeps (m : AbstractMesh MeshData Rotation) :
  mesh_id (adjust_text m) = mesh_id m /\
  position (adjust_text m) = position m /\
  enabled (adjust_text m) = enabled m /\
  mesh_data (adjust_text m) = mesh_data m.
Proof. repeat split. Qed.

(** X1: when the loader rejects, [setOutfit] rejects with the loader's
    failure and does not go back: the model it had is removed from the scene
    and forgotten, the url and the outfit are the new ones already; the
    plugin is not told, and gesture, marker and lights are as before. *)
Theorem setOutfit_rejects_without_rollback url_arg outfit_arg this e :
  LoadAssetContainerAsync "" url_arg (scene_without_model this)
                          (Some ".glb"%string) = Rejected e ->
  outcome (setOutfit url_arg outfit_arg) this = Rejected e /\
  model (after (setOutfit url_arg outfit_arg) this) = None /\
  url (after (setOutfit url_arg outfit_arg) this) = url_arg /\
  outfit (after (setOutfit url_arg outfit_arg) this) = outfit_arg /\
  scene (super (after (setOutfit url_arg outfit_arg) this)) =
    scene_without_model this /\
  base (super (after (setOutfit url_arg outfit_arg) this)) =
    base (super this) /\
  loaded (super (after (setOutfit url_arg outfit_arg) this)) =
    loaded (super this) /\
  handsUp (after (setOutfit url_arg outfit_arg) this) = handsUp this /\
  textModel (after (setOutfit url_arg outfit_arg) this) = textModel this /\
  light (after (setOutfit url_arg outfit_arg) this) = light this /\
  ambient (after (setOutfit url_arg outfit_arg) this) = ambient this.
Proof.
  intros H. unfold outcome, after. rewrite setOutfit_run, H.
  repeat split.
Qed.

(** X2: when the loader resolves, [setOutfit] resolves; the model is the
    first mesh of the container whose id is ["__root__"], none when the
    container has no such mesh; the container is added to the scene left
    without the old model, and the plugin is given the new model and the
    outfit; url and outfit are the arguments, gesture, marker and lights are
    as before. *)
Theorem setOutfit_resolves_with_root url_arg outfit_arg this gltf :
  LoadAssetContainerAsync "" url_arg (scene_without_model this)
                          (Some ".glb"%string) = Resolved gltf ->
  outcome (setOutfit url_arg outfit_arg) this = Resolved tt /\
  model (after (setOutfit url_arg outfit_arg) this) =
    find_id "__root__" gltf /\
  ((forall m, In m gltf -> mesh_id m <> "__root__"%string) ->
   model (after (setOutfit url_arg outfit_arg) this) = None) /\
  (forall m, model (after (setOutfit url_arg outfit_arg) this) = Some m ->
             In m gltf /\ mesh_id m = "__root__"%string) /\
  super (after (setOutfit url_arg outfit_arg) this) =
    plugin_setOutfit (find_id "__root__" gltf) outfit_arg
      (mkPoseRenderer (loaded (super this))
         (option_map (addAllToScene gltf) (scene_without_model this))
         (base (super this))) /\
  url (after (setOutfit url_arg outfit_arg) this) = url_arg /\
  outfit (after (setOutfit url_arg outfit_arg) this) = outfit_arg /\
  handsUp (after (setOutfit url_arg outfit_arg) this) = handsUp this /\
  textModel (after (setOutfit url_arg outfit_arg) this) = textModel this /\
  light (after (setOutfit url_arg outfit_arg) this) = light this /\
  ambient (after (setOutfit url_arg outfit_arg) this) = ambient this.
Proof.
  intros H. unfold outcome, after. rewrite setOutfit_run, H. simpl.
  split; [reflexivity | ]. split; [reflexivity | ].
  split; [apply find_id_none | ].
  split; [intros m; apply find_id_some | ].
  repeat split.
Qed.

(** X3: [setModel] keeps the outfit of the renderer whether the loader
    resolves or rejects, takes the new url in both cases, and leaves no
    model behind when it rejects. *)
Theorem setModel_keeps_outfit url_arg this :
  outfit (after (setModel url_arg) this) = outfit this /\
  url (after (setModel url_arg) this) = url_arg /\
  (forall e, outcome (setModel url_arg) this = Rejected e ->
             model (after (setModel url_arg) this) = None).
Proof.
  unfold outcome, after. rewrite setModel_run, setOutfit_run.
  destruct (LoadAssetContainerAsync "" url_arg (scene_without_model this)
                                    (Some ".glb"%string)); simpl.
  - repeat split. intros e He. discriminate He.
  - repeat split.
Qed.

(** X4: none of [setOutfit], [setModel], [setupScene] and [load] changes
    [handsUp] or, the first two, the marker, however the loads end. *)
Theorem loading_keeps_gesture url_arg outfit_arg this :
  handsUp (after (setOutfit url_arg outfit_arg) this) = handsUp this /\
  textModel (after (setOutfit url_arg outfit_arg) this) = textModel this /\
  handsUp (after (setModel url_arg) this) = handsUp this /\
  textModel (after (setModel url_arg) this) = textModel this /\
  handsUp (after setupScene this) = handsUp this /\
  handsUp (after load this) = handsUp this.
Proof.
  assert (Hs : forall u o t, handsUp (after (setOutfit u o) t) = handsUp t /\
                             textModel (after (setOutfit u o) t) = textModel t).
  { intros u o t. unfold after. rewrite setOutfit_run.
    destruct (LoadAssetContainerAsync _ _ _ _); split; reflexivity. }
  assert (Hu : forall t, handsUp (after setupScene t) = handsUp t).
  { intros t. unfold after. rewrite setupScene_run.
    destruct (LoadAssetContainerAsync "" _ _ _); [ | reflexivity].
    simpl. destruct (LoadAssetContainerAsync "./" _ _ _); reflexivity. }
  split; [apply Hs | ]. split; [apply Hs | ].
  split; [apply (Hs url_arg (outfit this) this) | ].
  split; [apply (Hs url_arg (outfit this) this) | ].
  split; [apply Hu | ].
  unfold after. rewrite load_run.
  destruct (loaded (super this)); [reflexivity | ].
  destruct (scene (super this)) as [sc|]; [ | reflexivity].
  specialize (Hu this). unfold after in Hu.
  destruct (setupScene this) as [[[]|e] s]; simpl in *; exact Hu.
Qed.

(** [setupScene] when both loads resolve, whatever the scene. *)
Lemma setupScene_resolved_state this g1 g2 :
  (forall sc, LoadAssetContainerAsync "" (url this) sc (Some ".glb"%string) =
              Resolved g1) ->
  (forall sc, LoadAssetContainerAsync "./" "text.glb" sc None =
              Resolved g2) ->
  setupScene this =
  (Resolved tt,
   with_text g2 (lit_up (fitted g1 (url this) (outfit this) this))).
Proof.
  intros H1 H2. rewrite setupScene_run, H1. cbv zeta. rewrite H2.
  reflexivity.
Qed.

(** The marker [with_text] sets is the root mesh as loaded. *)
Lemma root_not_adjusted gltf :
  find_id "__root__" (change_id "Text" adjust_text gltf) =
  find_id "__root__" gltf.
Proof.
  apply (find_id_change_id "Text" "__root__" adjust_text gltf).
  - intros m. reflexivity.
  - discriminate.
Qed.

(** X5: when both loads resolve, [setupScene] resolves with the model fitted
    from the first container, both lights at intensity 0.5 and white, and the
    marker being the ["__root__"] mesh of [text.glb] as loaded: the
    adjustment of the ["Text"] mesh does not reach it.  The scene is lit and
    then given the text container with its ["Text"] mesh adjusted. *)
Theorem setupScene_resolves this g1 g2 :
  (forall sc, LoadAssetContainerAsync "" (url this) sc (Some ".glb"%string) =
              Resolved g1) ->
  (forall sc, LoadAssetContainerAsync "./" "text.glb" sc None =
              Resolved g2) ->
  outcome setupScene this = Resolved tt /\
  model (after setupScene this) = find_id "__root__" g1 /\
  light (after setupScene this) =
    Some (mkPointLight 0.5 (mkColor3 1 1 1) (mkColor3 1 1 1)) /\
  ambient (after setupScene this) =
    Some (mkHemisphericLight 0.5 (mkColor3 1 1 1) (mkColor3 1 1 1)
                             (mkColor3 1 1 1)) /\
  textModel (after setupScene this) = find_id "__root__" g2 /\
  scene (super (after setupScene this)) =
    option_map (addAllToScene (change_id "Text" adjust_text g2))
      (option_map lit
         (scene (super (fitted g1 (url this) (outfit this) this)))) /\
  url (after setupScene this) = url this /\
  outfit (after setupScene this) = outfit this.
Proof.
  intros H1 H2. unfold outcome, after.
  rewrite (setupScene_resolved_state this g1 g2 H1 H2). simpl.
  split; [reflexivity | ]. split; [reflexivity | ].
  split; [reflexivity | ]. split; [reflexivity | ].
  split; [apply root_not_adjusted | repeat split].
Qed.


(** X7: when the load of the model rejects, [setupScene] rejects with that
    failure before anything else is set up: no light is made, the marker is
    as before, the scene has lost the old model and got nothing, and there
    is no model. *)
Theorem setupScene_rejects_at_model this e :
  LoadAssetContainerAsync "" (url this) (scene_without_model this)
                          (Some ".glb"%string) = Rejected e ->
  outcome setupScene this = Rejected e /\
  model (after setupScene this) = None /\
  light (after setupScene this) = light this /\
  ambient (after setupScene this) = ambient this /\
  textModel (after setupScene this) = textModel this /\
  scene (super (after setupScene this)) = scene_without_model this.
Proof.
  intros H. unfold outcome, after. rewrite setupScene_run, H.
  repeat split.
Qed.

(** X8: when the model loads and the load of [text.glb] rejects,
    [setupScene] rejects half way: the model is fitted, the lights are made
    and the scene is lit, and the marker is the one the renderer had. *)
Theorem setupScene_rejects_at_text this g1 e :
  (forall sc, LoadAssetContainerAsync "" (url this) sc (Some ".glb"%string) =
              Resolved g1) ->
  (forall sc, LoadAssetContainerAsync "./" "text.glb" sc None =
              Rejected e) ->
  outcome setupScene this = Rejected e /\
  model (after setupScene this) = find_id "__root__" g1 /\
  light (after setupScene this) =
    Some (mkPointLight 0.5 (mkColor3 1 1 1) (mkColor3 1 1 1)) /\
  ambient (after setupScene this) =
    Some (mkHemisphericLight 0.5 (mkColor3 1 1 1) (mkColor3 1 1 1)
                             (mkColor3 1 1 1)) /\
  textModel (after setupScene this) = textModel this /\
  scene (super (after setupScene this)) =
    option_map lit
      (scene (super (fitted g1 (url this) (outfit this) this))).
Proof.
  intros H1 H2. unfold outcome, after. rewrite setupScene_run, H1.
  cbv zeta. rewrite H2. repeat split.
Qed.

(** X9: on a renderer that is not loaded and has a scene, [load] rejects
    exactly when [setupScene] does, with the same failure and the same
    renderer: the base class's [load] is not run.  When it is the load of
    the model that rejects, the renderer is still not loaded and still has a
    scene, so the guard of [load] does not stop the next call. *)
Theorem load_rejects_before_base this sc e :
  loaded (super this) = false ->
  scene (super this) = Some sc ->
  (outcome setupScene this = Rejected e ->
   outcome load this = Rejected e /\
   after load this = after setupScene this) /\
  (LoadAssetContainerAsync "" (url this) (scene_without_model this)
                           (Some ".glb"%string) = Rejected e ->
   outcome load this = Rejected e /\
   loaded (super (after load this)) = false /\
   scene (super (after load this)) <> None /\
   base (super (after load this)) = base (super this)).
Proof.
  intros Hl Hs.
  assert (Hr : outcome setupScene this = Rejected e ->
               outcome load this = Rejected e /\
               after load this = after setupScene this).
  { unfold outcome, after. rewrite load_run, Hl, Hs.
    destruct (setupScene this) as [[[]|e'] s]; simpl;
      [discriminate | ].
    intros He. split; [exact He | reflexivity]. }
  split; [exact Hr | ].
  intros H.
  assert (Ho : outcome setupScene this = Rejected e)
    by (unfold outcome; rewrite setupScene_run, H; reflexivity).
  destruct (Hr Ho) as [Ho' Ha]. split; [exact Ho' | ].
  rewrite Ha. unfold after. rewrite setupScene_run, H. simpl.
  split; [exact Hl | ]. split; [ | reflexivity].
  unfold scene_without_model. rewrite Hs.
  destruct (model this); simpl; discriminate.
Qed.

(** X10: on a renderer that is not loaded and has a scene, both loads
    resolving, [load] ends as the base class's [load] ends on what
    [setupScene] left, and whatever the base class does then, the renderer
    has the fitted model, the two lights and the ["__root__"] mesh of
    [text.glb] as its marker. *)
Theorem load_sets_up_marker this sc g1 g2 :
  loaded (super this) = false ->
  scene (super this) = Some sc ->
  (forall sc, LoadAssetContainerAsync "" (url this) sc (Some ".glb"%string) =
              Resolved g1) ->
  (forall sc, LoadAssetContainerAsync "./" "text.glb" sc None =
              Resolved g2) ->
  outcome load this =
    fst (PoseRenderer_load (super (after setupScene this))) /\
  super (after load this) =
    snd (PoseRenderer_load (super (after setupScene this))) /\
  textModel (after load this) = find_id "__root__" g2 /\
  model (after load this) = find_id "__root__" g1 /\
  light (after load this) =
    Some (mkPointLight 0.5 (mkColor3 1 1 1) (mkColor3 1 1 1)) /\
  ambient (after load this) =
    Some (mkHemisphericLight 0.5 (mkColor3 1 1 1) (mkColor3 1 1 1)
                             (mkColor3 1 1 1)).
Proof.
  intros Hl Hs H1 H2.
  unfold outcome, after. rewrite load_run, Hl, Hs.
  rewrite (setupScene_resolved_state this g1 g2 H1 H2). simpl.
  split; [reflexivity | ]. split; [reflexivity | ].
  split; [apply root_not_adjusted | repeat split].
Qed.

(** X11: after such a [load], the first frame with a pose moves the
    ["__root__"] mesh of [text.glb] to the interpolation of the wrists and
    enables it by the rule of the two thresholds applied to the [handsUp]
    the renderer had before [load]. *)
Theorem marker_after_load_follows_frame this sc g1 g2 m result stream pose :
  loaded (super this) = false ->
  scene (super this) = Some sc ->
  (forall sc, LoadAssetContainerAsync "" (url this) sc (Some ".glb"%string) =
              Resolved g1) ->
  (forall sc, LoadAssetContainerAsync "./" "text.glb" sc None =
              Resolved g2) ->
  find_id "__root__" g2 = Some m ->
  first_pose result = Some pose ->
  textModel (after (update result stream) (after load this)) =
  Some (setEnabled (classify_rule (cosMin (points pose)) (handsUp this))
          (set_position (Vector3.Lerp (vec (wristL (points pose)))
                                      (vec (wristR (points pose))) 0.5) m)).
Proof.
  intros Hl Hs H1 H2 Hm H.
  rewrite (textModel_present _ _ _ _ H).
  unfold after. rewrite load_run, Hl, Hs.
  rewrite (setupScene_resolved_state this g1 g2 H1 H2). simpl.
  rewrite root_not_adjusted, Hm. reflexivity.
Qed.

End Loading.

(** ** Frames *)

Section Frames.

Context {HTMLElement Canvas OutfitParams Scene MeshData Rotation Failure
         Base : Type}.
Context {F : Framework HTMLElement Canvas OutfitParams Scene MeshData
                       Rotation Failure Base}.

Implicit Types (this : AvatarRenderer OutfitParams Scene MeshData Rotation Base).
Implicit Types (result : PoseResult) (stream : Canvas) (pose : Pose).
Implicit Types (frames : list (PoseResult * Canvas)).

(** The rule of the two thresholds, applied twice to the same [cosMin]. *)
Lemma classify_rule_twice (c : float) (previous : bool) :
  classify_rule c (classify_rule c previous) = classify_rule c previous.
Proof.
  unfold classify_rule.
  destruct (JS.gt c 0.8); [reflexivity | ].
  destruct (JS.lt c 0.7); reflexivity.
Qed.

(** [handsUp] after a frame is [gesture_step] of the frame. *)
Lemma handsUp_step result stream this :
  handsUp (after (update result stream) this) =
  gesture_step (handsUp this) result.
Proof.
  unfold gesture_step. destruct (first_pose result) as [pose|] eqn:H.
  - apply (handsUp_present _ _ _ _ H).
  - unfold after. rewrite (update_absent _ _ _ H). reflexivity.
Qed.

(** A run in two parts. *)
Lemma updates_app frames frames' this :
  updates (frames ++ frames') this = updates frames' (updates frames this).
Proof.
  revert this. induction frames as [|[result stream] rest IH]; intros this.
  - reflexivity.
  - simpl. apply IH.
Qed.

(** X12: on a frame with a pose one of whose four cosines is NaN, [cosMin]
    is NaN, neither threshold test holds and [handsUp] is left as it was. *)
Theorem nan_cosine_keeps_gesture result stream this pose :
  first_pose result = Some pose ->
  existsb is_nan (cosines (points pose)) = true ->
  is_nan (cosMin (points pose)) = true /\
  handsUp (after (update result stream) this) = handsUp this.
Proof.
  intros H Hnan. rewrite (handsUp_present _ _ _ _ H).
  unfold cosMin. rewrite (MathMin.Math_min_nan _ Hnan).
  split; reflexivity.
Qed.

(** X13: the same pose result handled twice in a row: the second frame
    changes neither [handsUp] nor the marker. *)
Theorem update_same_frame_twice result stream stream' this :
  handsUp (after (update result stream')
                 (after (update result stream) this)) =
    handsUp (after (update result stream) this) /\
  textModel (after (update result stream')
                   (after (update result stream) this)) =
    textModel (after (update result stream) this).
Proof.
  destruct (first_pose result) as [pose|] eqn:H.
  - rewrite !(handsUp_present _ _ _ _ H), !(textModel_present _ _ _ _ H),
      !(handsUp_present _ _ _ _ H), classify_rule_twice.
    split; [reflexivity | ].
    destruct (textModel this); reflexivity.
  - unfold after. rewrite !(update_absent _ _ _ H). split; reflexivity.
Qed.

(** X14: of the poses of a result only the first one counts for [handsUp]
    and for the marker, and a result without the [poses] field is handled as
    one whose [poses] is empty. *)
Theorem only_first_pose_counts pose (others : list Pose) stream this :
  handsUp (after (update (mkPoseResult (Some (pose :: others))) stream) this)
    = handsUp (after (update (mkPoseResult (Some [pose])) stream) this) /\
  textModel (after (update (mkPoseResult (Some (pose :: others))) stream)
                   this)
    = textModel (after (update (mkPoseResult (Some [pose])) stream) this) /\
  handsUp (after (update (mkPoseResult None) stream) this)
    = handsUp (after (update (mkPoseResult (Some [])) stream) this) /\
  textModel (after (update (mkPoseResult None) stream) this)
    = textModel (after (update (mkPoseResult (Some [])) stream) this).
Proof.
  rewrite (handsUp_present (mkPoseResult (Some (pose :: others))) _ _ pose
             eq_refl),
    (handsUp_present (mkPoseResult (Some [pose])) _ _ pose eq_refl),
    (textModel_present (mkPoseResult (Some (pose :: others))) _ _ pose
       eq_refl),
    (textModel_present (mkPoseResult (Some [pose])) _ _ pose eq_refl).
  unfold after.
  rewrite (update_absent (mkPoseResult None) _ _ eq_refl),
    (update_absent (mkPoseResult (Some [])) _ _ eq_refl).
  repeat split.
Qed.

(** X15: over any run of frames [handsUp] is a function of the frames and
    of its value at the start: it is [gesture_step] folded over the pose
    results, whatever the base class, the marker and the scene do. *)
Theorem handsUp_over_frames frames this :
  handsUp (updates frames this) =
  fold_left gesture_step (map fst frames) (handsUp this).
Proof.
  revert this. induction frames as [|[result stream] rest IH]; intros this.
  - reflexivity.
  - simpl. rewrite IH, handsUp_step. reflexivity.
Qed.

(** X16: starting with the hands down, a run of frames none of whose poses
    has [cosMin] above 0.8 ends with the hands down. *)
Theorem hands_stay_down frames this :
  handsUp this = false ->
  (forall result stream pose,
     In (result, stream) frames -> first_pose result = Some pose ->
     JS.gt (cosMin (points pose)) 0.8 = false) ->
  handsUp (updates frames this) = false.
Proof.
  revert this. induction frames as [|[result stream] rest IH];
    intros this Hdown Hlow.
  - exact Hdown.
  - simpl. apply IH.
    + rewrite handsUp_step. unfold gesture_step.
      destruct (first_pose result) as [pose|] eqn:H; [ | reflexivity].
      unfold classify_rule.
      rewrite (Hlow result stream pose (or_introl eq_refl) H), Hdown.
      destruct (JS.lt (cosMin (points pose)) 0.7); reflexivity.
    + intros r s p Hin. apply (Hlow r s p). right. exact Hin.
Qed.

(** X17: the hands are up after a run of frames exactly when they are up
    after its last frame handled from the state before it; in particular a
    run that ends with a frame without a pose ends with the hands down, and
    one that ends with [cosMin] above 0.8 ends with the hands up. *)
Theorem last_frame_decides frames result stream this :
  handsUp (updates (frames ++ [(result, stream)]) this) =
    gesture_step (handsUp (updates frames this)) result /\
  (first_pose result = None ->
   handsUp (updates (frames ++ [(result, stream)]) this) = false) /\
  (forall pose, first_pose result = Some pose ->
     JS.gt (cosMin (points pose)) 0.8 = true ->
     handsUp (updates (frames ++ [(result, stream)]) this) = true).
Proof.
  assert (E : handsUp (updates (frames ++ [(result, stream)]) this) =
              gesture_step (handsUp (updates frames this)) result).
  { rewrite updates_app. simpl. apply handsUp_step. }
  split; [exact E | ]. rewrite E. unfold gesture_step. split.
  - intros ->. reflexivity.
  - intros pose -> Hup. unfold classify_rule. rewrite Hup. reflexivity.
Qed.

(** X18: on a frame with a pose, a marker being there, the marker is enabled
    after the frame exactly when [handsUp] holds after it. *)
Theorem marker_shows_gesture result stream this pose m :
  first_pose result = Some pose ->
  textModel this = Some m ->
  exists m',
    textModel (after (update result stream) this) = Some m' /\
    enabled m' = handsUp (after (update result stream) this).
Proof.
  intros H Hm.
  rewrite (textModel_present _ _ _ _ H), (handsUp_present _ _ _ _ H), Hm.
  simpl. eexists. split; reflexivity.
Qed.

(** X20: over any run of frames the marker stays the same mesh but for its
    position and enabled flag: no frame makes, drops or replaces it, and
    model, lights, url and outfit are not touched. *)
Theorem marker_kept_over_frames frames this :
  match textModel this, textModel (updates frames this) with
  | Some m, Some m' =>
      mesh_id m' = mesh_id m /\ scaling m' = scaling m /\
      rotation m' = rotation m /\ mesh_data m' = mesh_data m
  | None, None => True
  | _, _ => False
  end /\
  model (updates frames this) = model this /\
  light (updates frames this) = light this /\
  ambient (updates frames this) = ambient this /\
  url (updates frames this) = url this /\
  outfit (updates frames this) = outfit this.
Proof.
  revert this. induction frames as [|[result stream] rest IH]; intros this.
  - simpl. destruct (textModel this); repeat split.
  - simpl. specialize (IH (after (update result stream) this)).
    assert (Hstep :
      textModel (after (update result stream) this) =
        match first_pose result with
        | Some pose =>
            option_map
              (fun m =>
                 setEnabled
                   (classify_rule (cosMin (points pose)) (handsUp this))
                   (set_position
                      (Vector3.Lerp (vec (wristL (points pose)))
                                    (vec (wristR (points pose))) 0.5) m))
              (textModel this)
        | None => textModel this
        end /\
      model (after (update result stream) this) = model this /\
      light (after (update result stream) this) = light this /\
      ambient (after (update result stream) this) = ambient this /\
      url (after (update result stream) this) = url this /\
      outfit (after (update result stream) this) = outfit this).
    { destruct (first_pose result) as [pose|] eqn:H.
      - rewrite (textModel_present _ _ _ _ H). unfold after.
        rewrite (update_present _ _ _ _ H). repeat split.
      - unfold after. rewrite (update_absent _ _ _ H). repeat split. }
    destruct Hstep as [Ht [Hm [Hl [Ha [Hu Ho]]]]].
    destruct IH as [IHt [IHm [IHl [IHa [IHu IHo]]]]].
    rewrite IHm, IHl, IHa, IHu, IHo, Hm, Hl, Ha, Hu, Ho.
    split; [ | repeat split].
    rewrite Ht in IHt.
    destruct (textModel this) as [m|];
      destruct (first_pose result) as [pose|]; simpl in IHt;
      destruct (textModel (updates rest (after (update result stream) this)));
      try exact IHt; try exact I.
Qed.

(** X21: a renderer as the constructor leaves it has the hands down, no
    model, no lights and no marker, and the url ["onesie.glb"] unless one is
    given; its first frame with a pose puts the hands up exactly when
    [cosMin] is above 0.8, and shows no marker. *)
Theorem first_frame_of_new_renderer container mode mirror url_arg outfit_arg
    result stream pose :
  first_pose result = Some pose ->
  let fresh := new_AvatarRenderer container mode mirror url_arg outfit_arg in
  handsUp fresh = false /\
  url fresh = match url_arg with Some u => u | None => "onesie.glb"%string end /\
  outfit fresh = outfit_arg /\
  handsUp (after (update result stream) fresh) =
    JS.gt (cosMin (points pose)) 0.8 /\
  textModel (after (update result stream) fresh) = None.
Proof.
  intros H fresh.
  rewrite (handsUp_present _ _ _ _ H), (textModel_present _ _ _ _ H).
  subst fresh. unfold new_AvatarRenderer, classify_rule. simpl.
  repeat split.
  destruct (JS.gt (cosMin (points pose)) 0.8); [reflexivity | ].
  destruct (JS.lt (cosMin (points pose)) 0.7); reflexivity.
Qed.

End Frames.

(** ** The least cosine, and the mirrored pose *)

Section Symmetry.

Context {HTMLElement Canvas OutfitParams Scene MeshData Rotation Failure
         Base : Type}.
Context {F : Framework HTMLElement Canvas OutfitParams Scene MeshData
                       Rotation Failure Base}.

Implicit Types (this : AvatarRenderer OutfitParams Scene MeshData Rotation Base).

(** X22: when none of the four cosines is NaN, [cosMin] is one of them and
    is at most each of them. *)
Theorem cosMin_is_least_cosine (p : PosePoints) :
  existsb is_nan (cosines p) = false ->
  In (cosMin p) (cosines p) /\
  (forall c, In c (cosines p) -> (cosMin p <=? c) = true).
Proof.
  intros H. unfold cosMin. split.
  - apply MinOrder.Math_min_in_nonempty; [discriminate | exact H].
  - intros c Hc. apply MathMin.Math_min_le; assumption.
Qed.

Lemma cosMin_mirrored (p : PosePoints) : cosMin (mirrored p) = cosMin p.
Proof.
  unfold cosMin. apply MinOrder.Math_min_same_elements.
  intros x. change (cosines (mirrored p))
    with [armRCos p; armLCos p; foreArmRCos p; foreArmLCos p].
  unfold cosines. simpl. tauto.
Qed.

(** X23: a pose and the pose with left and right exchanged give the same
    [cosMin], NaN included, and so the same [handsUp] after the frame. *)
Theorem mirrored_pose_same_gesture result result' stream stream' this pose :
  first_pose result = Some pose ->
  first_pose result' = Some (mkPose (mirrored (points pose))) ->
  cosMin (mirrored (points pose)) = cosMin (points pose) /\
  handsUp (after (update result' stream') this) =
    handsUp (after (update result stream) this).
Proof.
  intros H H'. split; [apply cosMin_mirrored | ].
  rewrite (handsUp_present _ _ _ _ H), (handsUp_present _ _ _ _ H').
  simpl. rewrite cosMin_mirrored. reflexivity.
Qed.

End Symmetry.

(** ** The further properties on sample renderers *)

Lemma setOutfit_rejects_without_rollback_witness :
  outcome (setOutfit (F := Offline.down) "new.glb" None) Offline.dressed =
    Rejected "cannot load new.glb"%string /\
  model (after (setOutfit (F := Offline.down) "new.glb" None)
               Offline.dressed) = None /\
  url (after (setOutfit (F := Offline.down) "new.glb" None)
             Offline.dressed) = "new.glb"%string /\
  scene (super (after (setOutfit (F := Offline.down) "new.glb" None)
                      Offline.dressed)) = Some [].
Proof.
  destruct (setOutfit_rejects_without_rollback
              (F := Offline.down)
              "new.glb" None Offline.dressed "cannot load new.glb"%string eq_refl)
    as [Ho [Hm [Hu [_ [Hs _]]]]].
  split; [exact Ho | ]. split; [exact Hm | ]. split; [exact Hu | ].
  rewrite Hs. reflexivity.
Defined.

Lemma setOutfit_resolves_with_root_witness :
  outcome (setOutfit (F := headless) "new.glb" None) Offline.dressed =
    Resolved tt /\
  model (after (setOutfit (F := headless) "new.glb" None) Offline.dressed) =
    Some (mesh "__root__") /\
  outfit (after (setOutfit (F := headless) "new.glb" None) Offline.dressed) =
    None.
Proof.
  destruct (setOutfit_resolves_with_root (F := headless)
              "new.glb" None Offline.dressed
              [mesh "__root__"; mesh "Text"] eq_refl)
    as [Ho [Hm [_ [_ [_ [_ [Hf _]]]]]]].
  split; [exact Ho | ]. split; [exact Hm | exact Hf].
Defined.

Lemma setupScene_resolves_witness :
  outcome (setupScene (F := headless)) fresh = Resolved tt /\
  textModel (after (setupScene (F := headless)) fresh) =
    Some (mesh "__root__").
Proof.
  destruct (setupScene_resolves (F := headless) fresh
              [mesh "__root__"; mesh "Text"] [mesh "__root__"; mesh "Text"]
              (fun _ => eq_refl) (fun _ => eq_refl))
    as [Ho [_ [_ [_ [Ht _]]]]].
  split; [exact Ho | exact Ht].
Defined.

Lemma setupScene_rejects_at_model_witness :
  outcome (setupScene (F := Offline.down)) Offline.dressed =
    Rejected "cannot load onesie.glb"%string /\
  light (after (setupScene (F := Offline.down)) Offline.dressed) = None /\
  model (after (setupScene (F := Offline.down)) Offline.dressed) = None.
Proof.
  destruct (setupScene_rejects_at_model
              (F := Offline.down)
              Offline.dressed "cannot load onesie.glb"%string eq_refl)
    as [Ho [Hm [Hl _]]].
  split; [exact Ho | ]. split; [exact Hl | exact Hm].
Defined.

Lemma setupScene_rejects_at_text_witness :
  outcome (setupScene (F := Offline.textless)) fresh =
    Rejected "cannot load text.glb"%string /\
  model (after (setupScene (F := Offline.textless)) fresh) =
    Some (mesh "__root__") /\
  textModel (after (setupScene (F := Offline.textless)) fresh) =
    None.
Proof.
  destruct (setupScene_rejects_at_text
              (F := Offline.textless) fresh
              [mesh "__root__"; mesh "Text"] "cannot load text.glb"%string
              (fun _ => eq_refl) (fun _ => eq_refl))
    as [Ho [Hm [_ [_ [Ht _]]]]].
  split; [exact Ho | ]. split; [exact Hm | exact Ht].
Defined.

Lemma load_rejects_before_base_witness :
  outcome (load (F := Offline.down)) fresh =
    Rejected "cannot load onesie.glb"%string /\
  loaded (super (after (load (F := Offline.down)) fresh)) =
    false.
Proof.
  destruct (load_rejects_before_base
              (F := Offline.down)
              fresh [] "cannot load onesie.glb"%string eq_refl eq_refl)
    as [_ H].
  destruct (H eq_refl) as [Ho [Hl _]].
  split; [exact Ho | exact Hl].
Defined.

Lemma load_sets_up_marker_witness :
  outcome (load (F := headless)) fresh = Resolved tt /\
  textModel (after (load (F := headless)) fresh) = Some (mesh "__root__").
Proof.
  destruct (load_sets_up_marker (F := headless) fresh []
              [mesh "__root__"; mesh "Text"] [mesh "__root__"; mesh "Text"]
              eq_refl eq_refl (fun _ => eq_refl) (fun _ => eq_refl))
    as [Ho [_ [Ht _]]].
  split; [exact Ho | exact Ht].
Defined.

Lemma marker_after_load_follows_frame_witness :
  textModel (after (update (F := headless) (frame wrists_apart) tt)
                   (after (load (F := headless)) fresh)) =
  Some (setEnabled false (set_position (mkVector3 1 0 0) (mesh "__root__"))).
Proof.
  exact (marker_after_load_follows_frame (F := headless) fresh []
           [mesh "__root__"; mesh "Text"] [mesh "__root__"; mesh "Text"]
           (mesh "__root__") (frame wrists_apart) tt (mkPose wrists_apart)
           eq_refl eq_refl (fun _ => eq_refl) (fun _ => eq_refl)
           eq_refl eq_refl).
Defined.

Lemma nan_cosine_keeps_gesture_witness :
  handsUp (after (update (F := headless) (frame far_hip) tt) (showing true)) =
    true /\
  handsUp (after (update (F := headless) (frame far_hip) tt) (showing false)) =
    false.
Proof.
  split.
  - apply (nan_cosine_keeps_gesture (F := headless) (frame far_hip) tt
             (showing true) (mkPose far_hip) eq_refl).
    vm_compute. reflexivity.
  - apply (nan_cosine_keeps_gesture (F := headless) (frame far_hip) tt
             (showing false) (mkPose far_hip) eq_refl).
    vm_compute. reflexivity.
Defined.

Lemma hands_stay_down_witness :
  handsUp (updates (F := headless)
             [(frame arms_down, tt); (no_pose, tt); (frame arms_at_bound, tt)]
             (showing false)) = false.
Proof.
  apply (hands_stay_down (F := headless)); [reflexivity | ].
  intros result stream pose [E | [E | [E | []]]] H;
    injection E as <- <-; try discriminate H; injection H as <-;
    vm_compute; reflexivity.
Defined.

Lemma last_frame_decides_witness :
  handsUp (updates (F := headless)
             ([(frame arms_up, tt)] ++ [(no_pose, tt)]) (showing false)) =
    false /\
  handsUp (updates (F := headless)
             ([(no_pose, tt)] ++ [(frame arms_up, tt)]) (showing false)) =
    true.
Proof.
  split.
  - destruct (last_frame_decides (F := headless) [(frame arms_up, tt)]
                no_pose tt (showing false)) as [_ [H _]].
    apply H. reflexivity.
  - destruct (last_frame_decides (F := headless) [(no_pose, tt)]
                (frame arms_up) tt (showing false)) as [_ [_ H]].
    apply (H (mkPose arms_up)); [reflexivity | vm_compute; reflexivity].
Defined.

Lemma marker_shows_gesture_witness :
  exists m',
    textModel (after (update (F := headless) (frame arms_up) tt)
                     (showing false)) = Some m' /\
    enabled m' = handsUp (after (update (F := headless) (frame arms_up) tt)
                                (showing false)).
Proof.
  exact (marker_shows_gesture (F := headless) (frame arms_up) tt
           (showing false) (mkPose arms_up) (mesh "__root__")
           eq_refl eq_refl).
Defined.

Lemma first_frame_of_new_renderer_witness :
  handsUp (after (update (F := headless) (frame arms_at_bound) tt) fresh) =
    false /\
  handsUp (after (update (F := headless) (frame arms_up) tt) fresh) = true.
Proof.
  destruct (first_frame_of_new_renderer (F := headless) tt (Some fit) None
              None None (frame arms_at_bound) tt (mkPose arms_at_bound)
              eq_refl) as [_ [_ [_ [H _]]]].
  destruct (first_frame_of_new_renderer (F := headless) tt (Some fit) None
              None None (frame arms_up) tt (mkPose arms_up)
              eq_refl) as [_ [_ [_ [H' _]]]].
  split.
  - unfold fresh. rewrite H. vm_compute. reflexivity.
  - unfold fresh. rewrite H'. vm_compute. reflexivity.
Defined.

Lemma cosMin_is_least_cosine_witness :
  In (cosMin arms_down) (cosines arms_down) /\
  (cosMin arms_down <=? foreArmLCos arms_down) = true.
Proof.
  destruct (cosMin_is_least_cosine arms_down) as [Hin Hle].
  - vm_compute. reflexivity.
  - split; [exact Hin | ].
    apply Hle. right. right. left. reflexivity.
Defined.

Lemma mirrored_pose_same_gesture_witness :
  handsUp (after (update (F := headless) (frame (mirrored far_hip)) tt)
                 (showing true)) =
  handsUp (after (update (F := headless) (frame far_hip) tt) (showing true)).
Proof.
  apply (mirrored_pose_same_gesture (F := headless) (frame far_hip)
           (frame (mirrored far_hip)) tt tt (showing true) (mkPose far_hip)
           eq_refl eq_refl).
Defined.

Lemma setModel_keeps_outfit_witness :
  outfit (after (setModel (F := Offline.down) "new.glb") Offline.dressed) =
    Some tt /\
  model (after (setModel (F := Offline.down) "new.glb") Offline.dressed) =
    None.
Proof.
  destruct (setModel_keeps_outfit (F := Offline.down) "new.glb"
              Offline.dressed) as [Ho [_ Hm]].
  split; [exact Ho | ].
  apply (Hm "cannot load new.glb"%string). reflexivity.
Defined.

